(** * Swap panel: quote display, wallet-state reducer and Jupiter quote hook

  A shallow embedding of
    - [interface/src/components/swap/quote-info.tsx]
      (the memos [coinGeckoDelta], [coinGeckoDeltaText], [coinGeckoDeltaColor]
      and the reducer [WalletReducer] of the wallet-state provider), and
    - [interface/src/hooks/useJupiter.ts]
      (the callbacks [refresh] and [exchange]),
  followed by the properties established about them. *)

From Stdlib Require Import QArith Qabs Lqa Lia List.
From stdpp Require Import gmap strings.

Set Implicit Arguments.
Unset Strict Implicit.

(* ===================================================================== *)
(** * Shared types ([~/constants/types]) *)
(* ===================================================================== *)

Module Types.

(** Modelled from the spec: the enum [CoinType] is declared in
    [~/constants/types], which is not among the sources.  The sources name
    one member, [CoinType.Solana]; every other coin is kept apart from it by
    its numeric identifier. *)
Inductive CoinType : Type :=
| Solana
| OtherCoin (id : N).

Definition CoinType_eqb (a b : CoinType) : bool :=
  match a, b with
  | Solana, Solana => true
  | OtherCoin x, OtherCoin y => N.eqb x y
  | _, _ => false
  end.

(** The members of [BlockchainToken] that the sources read:
    [token.contractAddress], [token.symbol], [token.isToken],
    [token.chainId]. *)
Record BlockchainToken : Type := {
  contractAddress : string;
  symbol : string;
  isToken : bool;
  chainId : string
}.

(** The members of a network that the sources read:
    [selectedNetwork.coin], [selectedNetwork.chainId], [network.symbol]. *)
Record NetworkInfo : Type := {
  coin : CoinType;
  networkChainId : string;
  networkSymbol : string
}.

(** The members of an account that the sources read:
    [selectedAccount.address], [selectedAccount.coin]. *)
Record WalletAccount : Type := {
  address : string;
  accountCoin : CoinType
}.

(** [Registry]: an object used as a map from asset key to a decimal
    string. *)
Abbreviation Registry := (gmap string string).

End Types.

(* ===================================================================== *)
(** * Amounts ([~/utils/amount]) *)
(* ===================================================================== *)

Module Amount.

Local Open Scope Q_scope.

(** Modelled from the spec: the class [Amount] of [~/utils/amount] is not
    among the sources.  The spec describes rates, prices and the delta as
    numbers combined by exact subtraction, division and multiplication and
    compared by [>=]; an amount is therefore a rational number and each
    method is the operation its name says. *)
Definition t : Type := Q.

(** [new Amount(value)] *)
Definition new (value : Q) : t := value.

(** [Amount.zero()] *)
Definition zero : t := 0.

(** [this.div(value)] *)
Definition div (this value : t) : t := this / value.

(** [this.minus(value)] *)
Definition minus (this value : t) : t := this - value.

(** [this.times(value)] *)
Definition times (this value : t) : t := this * value.

(** [this.gte(value)] *)
Definition gte (this value : t) : bool := Qle_bool value this.

End Amount.

(* ===================================================================== *)
(** * Quote display ([components/swap/quote-info.tsx], lines 43-147) *)
(* ===================================================================== *)

Module QuoteInfo.

Import Types.
Local Open Scope Q_scope.

(** A liquidity provider of a quote: [source.name]. *)
Record LiquiditySource : Type := { name : string }.

(** [selectedQuoteOption.routing === 'split']; the specification lists the
    two routings as single and split. *)
Inductive Routing : Type := single | split.

(** The members of [QuoteOption] that the component reads. *)
Record QuoteOption : Type := {
  fromToken : BlockchainToken;
  toToken : BlockchainToken;
  rate : Amount.t;
  impact : Amount.t;
  minimumToAmount : Amount.t;
  sources : list LiquiditySource;
  routing : Routing
}.

(** Modelled from the spec: the declaration of [state.spotPrices] is not
    among the sources.  The spec calls a spot price an externally observed
    USD price, so the two members the component reads are numbers. *)
Record SpotPrices : Type := {
  makerAsset : Q;
  takerAsset : Q
}.

(** The truth value JavaScript gives a number in [a && b]: every number
    but zero is truthy. *)
Definition truthy (price : Q) : bool := negb (Qeq_bool price 0).

(** [x !== undefined] *)
Definition defined {A : Type} (x : option A) : bool :=
  match x with Some _ => true | None => false end.

(** The props of the component (lines 43-48). *)
Record Props : Type := {
  selectedQuoteOption : option QuoteOption;
  propsFromToken : option BlockchainToken;
  propsToToken : option BlockchainToken;
  toAmount : string
}.

(** [coinGeckoDelta] (lines 77-105). *)
Definition coinGeckoDelta (spotPrices : SpotPrices) (props : Props) : Amount.t :=
  if defined (propsFromToken props)
     && defined (propsToToken props)
     && truthy (makerAsset spotPrices)
     && truthy (takerAsset spotPrices)
  then
    match selectedQuoteOption props with
    | Some option =>
        let coinGeckoRate :=
          Amount.div (Amount.new (makerAsset spotPrices)) (takerAsset spotPrices) in
        let quoteRate := rate option in
        Amount.times (Amount.div (Amount.minus quoteRate coinGeckoRate) quoteRate) 100
    | None => Amount.zero
    end
  else Amount.zero.

(** The three locale templates the delta text chooses from. *)
Inductive LocaleKey : Type :=
| braveSwapCoinGeckoCheaper
| braveSwapCoinGeckoWithin
| braveSwapCoinGeckoExpensive.

(** [getLocale(key).replace('$1', amount.format(2))]: the template that is
    looked up and the amount that is formatted into its placeholder.  The
    locale table and the number formatter are external to the component. *)
Record DeltaText : Type := {
  template : LocaleKey;
  placeholder : Amount.t
}.

(** [coinGeckoDeltaText] (lines 107-120). *)
Definition coinGeckoDeltaText (coinGeckoDelta : Amount.t) : DeltaText :=
  if Amount.gte coinGeckoDelta 0 then
    {| template := braveSwapCoinGeckoCheaper; placeholder := coinGeckoDelta |}
  else if Amount.gte coinGeckoDelta (-1) then
    {| template := braveSwapCoinGeckoWithin;
       placeholder := Amount.times coinGeckoDelta (-1) |}
  else
    {| template := braveSwapCoinGeckoExpensive;
       placeholder := Amount.times coinGeckoDelta (-1) |}.

(** The three colour names the delta colour chooses from. *)
Inductive TextColor : Type := success | warning | error.

(** [coinGeckoDeltaColor] (lines 122-132). *)
Definition coinGeckoDeltaColor (coinGeckoDelta : Amount.t) : TextColor :=
  if Amount.gte coinGeckoDelta (-1) then success
  else if Amount.gte coinGeckoDelta (-5) then warning
  else error.

(** The reference rate and the delta as the specification words them:
    [R_ref = spotPrice(FROM) / spotPrice(TO)] and
    [delta = (R_quote - R_ref) / R_quote * 100]. *)
Definition spec_reference_rate (spotFrom spotTo : Q) : Q := spotFrom / spotTo.

Definition spec_delta (R_quote R_ref : Q) : Q :=
  (R_quote - R_ref) / R_quote * 100.

(** The props of a rendering in which both tokens and the quote option are
    defined. *)
Definition all_defined (fromToken toToken : BlockchainToken)
    (option : QuoteOption) (toAmount : string) : Props :=
  {| selectedQuoteOption := Some option;
     propsFromToken := Some fromToken;
     propsToToken := Some toToken;
     toAmount := toAmount |}.

(** Two renderings fed the same numbers: equal prices, the same tokens
    defined, and quote options of equal rate. *)
Definition same_inputs (spotPrices spotPrices' : SpotPrices) (props props' : Props) : Prop :=
  makerAsset spotPrices == makerAsset spotPrices' /\
  takerAsset spotPrices == takerAsset spotPrices' /\
  defined (propsFromToken props) = defined (propsFromToken props') /\
  defined (propsToToken props) = defined (propsToToken props') /\
  match selectedQuoteOption props, selectedQuoteOption props' with
  | Some option, Some option' => rate option == rate option'
  | None, None => True
  | _, _ => False
  end.

End QuoteInfo.

(* ===================================================================== *)
(** * Wallet-state reducer ([WalletReducer] and [initialState]) *)
(* ===================================================================== *)

Module Wallet.

Import Types.

Section Reducer.

(** [Exchange] and [GasEstimate] are declared in [~/constants/types]; the
    reducer stores their values and never looks inside them. *)
Variables Exchange GasEstimate : Type.

(** [WalletState], with the members [initialState] lists. *)
Record WalletState : Type := {
  tokenBalances : Registry;
  tokenSpotPrices : Registry;
  tokenList : list BlockchainToken;
  selectedAccount : option WalletAccount;
  selectedNetwork : option NetworkInfo;
  isConnected : bool;
  supportedNetworks : list NetworkInfo;
  braveWalletAccounts : list WalletAccount;
  supportedExchanges : list Exchange;
  userSelectedExchanges : list Exchange;
  networkFeeEstimates : gmap string GasEstimate;
  defaultBaseCurrency : string;
  isNetworkSupported : bool
}.

(** [initialState] *)
Definition initialState : WalletState := {|
  tokenBalances := ∅;
  tokenSpotPrices := ∅;
  tokenList := [];
  selectedAccount := None;
  selectedNetwork := None;
  isConnected := false;
  supportedNetworks := [];
  braveWalletAccounts := [];
  supportedExchanges := [];
  userSelectedExchanges := [];
  networkFeeEstimates := ∅;
  defaultBaseCurrency := "";
  isNetworkSupported := true
|}.

(** [WalletActions]: one constructor per [case] of the reducer's [switch],
    and [otherAction] for any [action.type] that reaches [default]. *)
Inductive WalletActions : Type :=
| updateTokenBalances (payload : Registry)
| updateTokenSpotPrices (payload : Registry)
| updateTokenList (payload : list BlockchainToken)
| updateSelectedNetwork (payload : option NetworkInfo)
| updateSupportedNetworks (payload : list NetworkInfo)
| updateIsNetworkSupported (payload : bool)
| updateSelectedAccount (payload : option WalletAccount)
| updateBraveWalletAccounts (payload : list WalletAccount)
| updateSupportedExchanges (payload : list Exchange)
| updateUserSelectedExchanges (payload : list Exchange)
| updateNetworkFeeEstimates (payload : gmap string GasEstimate)
| updateDefaultBaseCurrency (payload : string)
| setIsConnected (payload : bool)
| otherAction (type : string).

(** [{ ...state, <member>: value }], one definition per member the reducer
    writes. *)
Definition with_tokenBalances (state : WalletState) (value : Registry) : WalletState :=
  {| tokenBalances := value;
     tokenSpotPrices := tokenSpotPrices state;
     tokenList := tokenList state;
     selectedAccount := selectedAccount state;
     selectedNetwork := selectedNetwork state;
     isConnected := isConnected state;
     supportedNetworks := supportedNetworks state;
     braveWalletAccounts := braveWalletAccounts state;
     supportedExchanges := supportedExchanges state;
     userSelectedExchanges := userSelectedExchanges state;
     networkFeeEstimates := networkFeeEstimates state;
     defaultBaseCurrency := defaultBaseCurrency state;
     isNetworkSupported := isNetworkSupported state |}.

Definition with_tokenList (state : WalletState) (value : list BlockchainToken) : WalletState :=
  {| tokenBalances := tokenBalances state;
     tokenSpotPrices := tokenSpotPrices state;
     tokenList := value;
     selectedAccount := selectedAccount state;
     selectedNetwork := selectedNetwork state;
     isConnected := isConnected state;
     supportedNetworks := supportedNetworks state;
     braveWalletAccounts := braveWalletAccounts state;
     supportedExchanges := supportedExchanges state;
     userSelectedExchanges := userSelectedExchanges state;
     networkFeeEstimates := networkFeeEstimates state;
     defaultBaseCurrency := defaultBaseCurrency state;
     isNetworkSupported := isNetworkSupported state |}.

Definition with_selectedAccount (state : WalletState) (value : option WalletAccount) : WalletState :=
  {| tokenBalances := tokenBalances state;
     tokenSpotPrices := tokenSpotPrices state;
     tokenList := tokenList state;
     selectedAccount := value;
     selectedNetwork := selectedNetwork state;
     isConnected := isConnected state;
     supportedNetworks := supportedNetworks state;
     braveWalletAccounts := braveWalletAccounts state;
     supportedExchanges := supportedExchanges state;
     userSelectedExchanges := userSelectedExchanges state;
     networkFeeEstimates := networkFeeEstimates state;
     defaultBaseCurrency := defaultBaseCurrency state;
     isNetworkSupported := isNetworkSupported state |}.

Definition with_selectedNetwork (state : WalletState) (value : option NetworkInfo) : WalletState :=
  {| tokenBalances := tokenBalances state;
     tokenSpotPrices := tokenSpotPrices state;
     tokenList := tokenList state;
     selectedAccount := selectedAccount state;
     selectedNetwork := value;
     isConnected := isConnected state;
     supportedNetworks := supportedNetworks state;
     braveWalletAccounts := braveWalletAccounts state;
     supportedExchanges := supportedExchanges state;
     userSelectedExchanges := userSelectedExchanges state;
     networkFeeEstimates := networkFeeEstimates state;
     defaultBaseCurrency := defaultBaseCurrency state;
     isNetworkSupported := isNetworkSupported state |}.

Definition with_isConnected (state : WalletState) (value : bool) : WalletState :=
  {| tokenBalances := tokenBalances state;
     tokenSpotPrices := tokenSpotPrices state;
     tokenList := tokenList state;
     selectedAccount := selectedAccount state;
     selectedNetwork := selectedNetwork state;
     isConnected := value;
     supportedNetworks := supportedNetworks state;
     braveWalletAccounts := braveWalletAccounts state;
     supportedExchanges := supportedExchanges state;
     userSelectedExchanges := userSelectedExchanges state;
     networkFeeEstimates := networkFeeEstimates state;
     defaultBaseCurrency := defaultBaseCurrency state;
     isNetworkSupported := isNetworkSupported state |}.

Definition with_supportedNetworks (state : WalletState) (value : list NetworkInfo) : WalletState :=
  {| tokenBalances := tokenBalances state;
     tokenSpotPrices := tokenSpotPrices state;
     tokenList := tokenList state;
     selectedAccount := selectedAccount state;
     selectedNetwork := selectedNetwork state;
     isConnected := isConnected state;
     supportedNetworks := value;
     braveWalletAccounts := braveWalletAccounts state;
     supportedExchanges := supportedExchanges state;
     userSelectedExchanges := userSelectedExchanges state;
     networkFeeEstimates := networkFeeEstimates state;
     defaultBaseCurrency := defaultBaseCurrency state;
     isNetworkSupported := isNetworkSupported state |}.

Definition with_braveWalletAccounts (state : WalletState) (value : list WalletAccount) : WalletState :=
  {| tokenBalances := tokenBalances state;
     tokenSpotPrices := tokenSpotPrices state;
     tokenList := tokenList state;
     selectedAccount := selectedAccount state;
     selectedNetwork := selectedNetwork state;
     isConnected := isConnected state;
     supportedNetworks := supportedNetworks state;
     braveWalletAccounts := value;
     supportedExchanges := supportedExchanges state;
     userSelectedExchanges := userSelectedExchanges state;
     networkFeeEstimates := networkFeeEstimates state;
     defaultBaseCurrency := defaultBaseCurrency state;
     isNetworkSupported := isNetworkSupported state |}.

Definition with_supportedExchanges (state : WalletState) (value : list Exchange) : WalletState :=
  {| tokenBalances := tokenBalances state;
     tokenSpotPrices := tokenSpotPrices state;
     tokenList := tokenList state;
     selectedAccount := selectedAccount state;
     selectedNetwork := selectedNetwork state;
     isConnected := isConnected state;
     supportedNetworks := supportedNetworks state;
     braveWalletAccounts := braveWalletAccounts state;
     supportedExchanges := value;
     userSelectedExchanges := userSelectedExchanges state;
     networkFeeEstimates := networkFeeEstimates state;
     defaultBaseCurrency := defaultBaseCurrency state;
     isNetworkSupported := isNetworkSupported state |}.

Definition with_userSelectedExchanges (state : WalletState) (value : list Exchange) : WalletState :=
  {| tokenBalances := tokenBalances state;
     tokenSpotPrices := tokenSpotPrices state;
     tokenList := tokenList state;
     selectedAccount := selectedAccount state;
     selectedNetwork := selectedNetwork state;
     isConnected := isConnected state;
     supportedNetworks := supportedNetworks state;
     braveWalletAccounts := braveWalletAccounts state;
     supportedExchanges := supportedExchanges state;
     userSelectedExchanges := value;
     networkFeeEstimates := networkFeeEstimates state;
     defaultBaseCurrency := defaultBaseCurrency state;
     isNetworkSupported := isNetworkSupported state |}.

Definition with_networkFeeEstimates (state : WalletState) (value : gmap string GasEstimate) : WalletState :=
  {| tokenBalances := tokenBalances state;
     tokenSpotPrices := tokenSpotPrices state;
     tokenList := tokenList state;
     selectedAccount := selectedAccount state;
     selectedNetwork := selectedNetwork state;
     isConnected := isConnected state;
     supportedNetworks := supportedNetworks state;
     braveWalletAccounts := braveWalletAccounts state;
     supportedExchanges := supportedExchanges state;
     userSelectedExchanges := userSelectedExchanges state;
     networkFeeEstimates := value;
     defaultBaseCurrency := defaultBaseCurrency state;
     isNetworkSupported := isNetworkSupported state |}.

Definition with_defaultBaseCurrency (state : WalletState) (value : string) : WalletState :=
  {| tokenBalances := tokenBalances state;
     tokenSpotPrices := tokenSpotPrices state;
     tokenList := tokenList state;
     selectedAccount := selectedAccount state;
     selectedNetwork := selectedNetwork state;
     isConnected := isConnected state;
     supportedNetworks := supportedNetworks state;
     braveWalletAccounts := braveWalletAccounts state;
     supportedExchanges := supportedExchanges state;
     userSelectedExchanges := userSelectedExchanges state;
     networkFeeEstimates := networkFeeEstimates state;
     defaultBaseCurrency := value;
     isNetworkSupported := isNetworkSupported state |}.

Definition with_isNetworkSupported (state : WalletState) (value : bool) : WalletState :=
  {| tokenBalances := tokenBalances state;
     tokenSpotPrices := tokenSpotPrices state;
     tokenList := tokenList state;
     selectedAccount := selectedAccount state;
     selectedNetwork := selectedNetwork state;
     isConnected := isConnected state;
     supportedNetworks := supportedNetworks state;
     braveWalletAccounts := braveWalletAccounts state;
     supportedExchanges := supportedExchanges state;
     userSelectedExchanges := userSelectedExchanges state;
     networkFeeEstimates := networkFeeEstimates state;
     defaultBaseCurrency := defaultBaseCurrency state;
     isNetworkSupported := value |}.

(** [{ ...a, ...b }] on objects used as maps: every key of [b], and the keys
    of [a] that [b] lacks. *)
Definition spread (a b : Registry) : Registry := b ∪ a.

(** [WalletReducer] (lines 337-368).  The case ['updateTokenSpotPrices']
    returns [{ ...state, tokenBalances: action.payload }]. *)
Definition WalletReducer (state : WalletState) (action : WalletActions) : WalletState :=
  match action with
  | updateTokenBalances payload =>
      with_tokenBalances state (spread (tokenBalances state) payload)
  | updateTokenSpotPrices payload => with_tokenBalances state payload
  | updateTokenList payload => with_tokenList state payload
  | updateSelectedNetwork payload => with_selectedNetwork state payload
  | updateSupportedNetworks payload => with_supportedNetworks state payload
  | updateIsNetworkSupported payload => with_isNetworkSupported state payload
  | updateSelectedAccount payload => with_selectedAccount state payload
  | updateBraveWalletAccounts payload => with_braveWalletAccounts state payload
  | updateSupportedExchanges payload => with_supportedExchanges state payload
  | updateUserSelectedExchanges payload => with_userSelectedExchanges state payload
  | updateNetworkFeeEstimates payload => with_networkFeeEstimates state payload
  | updateDefaultBaseCurrency payload => with_defaultBaseCurrency state payload
  | setIsConnected payload => with_isConnected state payload
  | otherAction _ => state
  end.

End Reducer.

Arguments initialState {Exchange GasEstimate}.

End Wallet.

(* ===================================================================== *)
(** * The Jupiter quote hook ([hooks/useJupiter.ts]) *)
(* ===================================================================== *)

Module Jupiter.

Import Types.

(** A value thrown by a call: [(e as Error).message]. *)
Record Exception : Type := { message : string }.

(** How a call ends: it returns (an awaited promise resolves) or it throws
    (the promise rejects). *)
Inductive Completion (A : Type) : Type :=
| Returned (value : A)
| Thrown (e : Exception).

Arguments Thrown {A} e.

(** [a || b] on strings: the empty string is the falsy one. *)
Definition or_else (a b : string) : string :=
  if String.eqb a "" then b else a.

(** [selectedNetwork?.coin !== CoinType.Solana] *)
Definition coin_is_not_Solana (selectedNetwork : option NetworkInfo) : bool :=
  match selectedNetwork with
  | Some network => negb (CoinType_eqb (coin network) Solana)
  | None => true
  end.

(** The members of [SwapParams] that the hook reads. *)
Record SwapParams : Type := {
  fromToken : option BlockchainToken;
  toToken : option BlockchainToken;
  fromAmount : string;
  slippagePercentage : Q
}.

(** [Partial<SwapParams>]: a member is absent ([None]) or present with a
    value of the member's type, [undefined] included where the member
    admits it. *)
Record PartialSwapParams : Type := {
  overrideFromToken : option (option BlockchainToken);
  overrideToToken : option (option BlockchainToken);
  overrideFromAmount : option string;
  overrideSlippagePercentage : option Q
}.

(** The default value [{}] of [overrides]. *)
Definition no_overrides : PartialSwapParams :=
  {| overrideFromToken := None;
     overrideToToken := None;
     overrideFromAmount := None;
     overrideSlippagePercentage := None |}.

(** [{ ...params, ...overrides }]: a member present in [overrides] replaces
    the one of [params]. *)
Definition spread (params : SwapParams) (overrides : PartialSwapParams) : SwapParams :=
  {| fromToken := default (fromToken params) (overrideFromToken overrides);
     toToken := default (toToken params) (overrideToToken overrides);
     fromAmount := default (fromAmount params) (overrideFromAmount overrides);
     slippagePercentage :=
       default (slippagePercentage params) (overrideSlippagePercentage overrides) |}.

(** The argument of [swapService.getJupiterQuote]. *)
Record JupiterQuoteParams : Type := {
  inputMint : string;
  quoteOutputMint : string;
  amount : string;
  quoteSlippagePercentage : Q
}.

(** The result of [swapService.getJupiterTransactionsPayload]. *)
Record JupiterSwapTransactions : Type := {
  setupTransaction : option string;
  swapTransaction : string;
  cleanupTransaction : option string
}.

(** [sendOptions: { skipPreflight: true }] *)
Record SendOptions : Type := { skipPreflight : bool }.

(** The argument of [solWalletAdapter.sendTransaction]. *)
Record SendSolanaTransactionParams : Type := {
  encodedTransaction : string;
  from : string;
  sendOptions : SendOptions
}.

Section Hook.

(** [JupiterRoute] and [JupiterErrorResponse] are declared in
    [~/constants/types]; the hook stores and forwards their values and never
    looks inside them. *)
Variables JupiterRoute JupiterErrorResponse : Type.

(** [WRAPPED_SOL_CONTRACT_ADDRESS] of [~/constants/magics]. *)
Variable WRAPPED_SOL_CONTRACT_ADDRESS : string.

(** [JSON.parse(text) as JupiterErrorResponse]: the parsed value, or the
    exception thrown for a text that is no JSON. *)
Variable JSON_parse : string -> Completion JupiterErrorResponse.

(** [JupiterQuoteResponse]: the hook reads [quote.routes]. *)
Record JupiterQuoteResponse : Type := { routes : list JupiterRoute }.

(** The argument of [swapService.getJupiterTransactionsPayload].
    [route] holds the value of [selectedRoute || quote.routes[0]], which
    JavaScript leaves [undefined] when both operands are. *)
Record JupiterSwapParams : Type := {
  userPublicKey : string;
  route : option JupiterRoute;
  swapOutputMint : string
}.

(** [swapService] of the swap context. *)
Record SwapService : Type := {
  getJupiterQuote : JupiterQuoteParams -> Completion JupiterQuoteResponse;
  getJupiterTransactionsPayload : JupiterSwapParams -> Completion JupiterSwapTransactions
}.

(** [solWalletAdapter] of the swap context. *)
Record SolWalletAdapter : Type := {
  sendTransaction : SendSolanaTransactionParams -> Completion unit
}.

(** The four [React.useState] cells of the hook. *)
Record HookState : Type := {
  quote : option JupiterQuoteResponse;
  error : option JupiterErrorResponse;
  loading : bool;
  selectedRoute : option JupiterRoute
}.

(** What a callback closes over besides the state cells: the hook's
    argument, the swap context and the wallet state. *)
Record Closure : Type := {
  params : SwapParams;
  swapService : SwapService;
  solWalletAdapter : SolWalletAdapter;
  selectedNetwork : option NetworkInfo;
  selectedAccount : option WalletAccount
}.

(** What a callback does to the world outside the hook, in the order it
    happens. *)
Inductive Effect : Type :=
| CallGetJupiterQuote (args : JupiterQuoteParams)
| CallGetJupiterTransactionsPayload (args : JupiterSwapParams)
| CallSendTransaction (args : SendSolanaTransactionParams)
| ConsoleLog (text : string) (e : Exception)
| ConsoleError (text : string) (e : Exception).

(** A run of a callback: the state cells and the effects so far. *)
Record Run : Type := {
  cells : HookState;
  effects : list Effect
}.

(** A callback body: it reads and writes the cells, performs effects and
    yields a value. *)
Definition Async (A : Type) : Type := Run -> A * Run.

Definition ret {A : Type} (a : A) : Async A := fun run => (a, run).

Definition bind {A B : Type} (m : Async A) (k : A -> Async B) : Async B :=
  fun run => let (a, run') := m run in k a run'.

(** The value of a state cell as the callback sees it. *)
Definition read {A : Type} (cell : HookState -> A) : Async A :=
  fun run => (cell (cells run), run).

Definition perform (effect : Effect) : Async unit :=
  fun run => (tt, {| cells := cells run; effects := effects run ++ [effect] |}).

Definition write (update : HookState -> HookState) : Async unit :=
  fun run => (tt, {| cells := update (cells run); effects := effects run |}).

Definition setQuote (value : option JupiterQuoteResponse) : Async unit :=
  write (fun s => {| quote := value; error := error s;
                     loading := loading s; selectedRoute := selectedRoute s |}).

Definition setError (value : option JupiterErrorResponse) : Async unit :=
  write (fun s => {| quote := quote s; error := value;
                     loading := loading s; selectedRoute := selectedRoute s |}).

Definition setLoading (value : bool) : Async unit :=
  write (fun s => {| quote := quote s; error := error s;
                     loading := value; selectedRoute := selectedRoute s |}).

Definition setSelectedRoute (value : option JupiterRoute) : Async unit :=
  write (fun s => {| quote := quote s; error := error s;
                     loading := loading s; selectedRoute := value |}).

Notation "'let*' x := m 'in' k" := (bind m (fun x => k))
  (at level 10, x name, m at level 200, k at level 200).
Notation "m >> k" := (bind m (fun _ => k))
  (at level 100, k at level 200, right associativity).

(** The [catch] block shared by [refresh] and [exchange]: log the failure,
    then store its message as the error when it parses, and log the parse
    failure when it does not. *)
Definition catch_service_failure (text : string) (e : Exception) : Async unit :=
  perform (ConsoleLog text e) >>
  match JSON_parse (message e) with
  | Returned err => setError (Some err)
  | Thrown e' => perform (ConsoleError "Error parsing Jupiter response: " e')
  end.

(** [refresh] (lines 43-89). *)
Definition refresh (c : Closure) (overrides : PartialSwapParams)
  : Async (option JupiterQuoteResponse) :=
  let overriddenParams := spread (params c) overrides in
  if coin_is_not_Solana (selectedNetwork c) then ret None
  else
    match fromToken overriddenParams, toToken overriddenParams with
    | Some fromToken, Some toToken =>
        if String.eqb (fromAmount overriddenParams) "" then
          setQuote None >>
          setError None >>
          ret None
        else
          setLoading true >>
          let args :=
            {| inputMint :=
                 or_else (contractAddress fromToken) WRAPPED_SOL_CONTRACT_ADDRESS;
               quoteOutputMint :=
                 or_else (contractAddress toToken) WRAPPED_SOL_CONTRACT_ADDRESS;
               amount := fromAmount overriddenParams;
               quoteSlippagePercentage := slippagePercentage overriddenParams |} in
          perform (CallGetJupiterQuote args) >>
          let* response :=
            match getJupiterQuote (swapService c) args with
            | Returned response =>
                setQuote (Some response) >>
                ret (Some response)
            | Thrown e =>
                catch_service_failure "Error getting Jupiter quote: " e >>
                ret None
            end in
          setLoading false >>
          ret response
    | _, _ => ret None
    end.

(** [exchange] (lines 91-149). *)
Definition exchange (c : Closure) : Async unit :=
  let* quote := read quote in
  let* selectedRoute := read selectedRoute in
  match quote with
  | None => ret tt
  | Some quote =>
      if Nat.eqb (length (routes quote)) 0 then ret tt
      else if coin_is_not_Solana (selectedNetwork c) then ret tt
      else
        match toToken (params c), selectedAccount c with
        | None, _ => ret tt
        | Some _, None => ret tt
        | Some toToken, Some selectedAccount =>
            setLoading true >>
            let args :=
              {| userPublicKey := address selectedAccount;
                 route :=
                   match selectedRoute with
                   | Some chosen => Some chosen
                   | None => routes quote !! 0%nat
                   end;
                 swapOutputMint :=
                   or_else (contractAddress toToken) WRAPPED_SOL_CONTRACT_ADDRESS |} in
            perform (CallGetJupiterTransactionsPayload args) >>
            let* response :=
              match getJupiterTransactionsPayload (swapService c) args with
              | Returned response => ret (Some response)
              | Thrown e =>
                  catch_service_failure "Error getting Jupiter swap transactions: " e >>
                  ret None
              end in
            match response with
            | None => setLoading false
            | Some response =>
                let sent :=
                  {| encodedTransaction := swapTransaction response;
                     from := address selectedAccount;
                     sendOptions := {| skipPreflight := true |} |} in
                perform (CallSendTransaction sent) >>
                match sendTransaction (solWalletAdapter c) sent with
                | Returned _ => ret tt
                | Thrown e =>
                    perform (ConsoleError "Error creating Solana transaction: " e)
                end >>
                setLoading false
            end
        end
  end.

(** A callback started in the state [s], with nothing done yet. *)
Definition start (s : HookState) : Run := {| cells := s; effects := [] |}.

(** The cells and the effects at the end of a call. *)
Definition run_refresh (c : Closure) (overrides : PartialSwapParams) (s : HookState) : Run :=
  snd (refresh c overrides (start s)).

Definition run_exchange (c : Closure) (s : HookState) : Run :=
  snd (exchange c (start s)).

(** The three conditions under which [refresh] goes on to the aggregator. *)
Definition refresh_preconditions (c : Closure) (overrides : PartialSwapParams) : Prop :=
  (exists network, selectedNetwork c = Some network /\ coin network = Solana) /\
  is_Some (fromToken (spread (params c) overrides)) /\
  is_Some (toToken (spread (params c) overrides)) /\
  fromAmount (spread (params c) overrides) <> "".

End Hook.

End Jupiter.

(* ===================================================================== *)
(** * The liquidity-provider row ([quote-info.tsx], lines 189-211) *)
(* ===================================================================== *)

Module QuoteInfoView.

Import Stdlib.Strings.Ascii Types QuoteInfo.

(** [text.split(separator)] for a separator of one character: the pieces
    between the separators, the empty ones included. *)
Fixpoint split (separator : ascii) (text : string) : list string :=
  match text with
  | EmptyString => [EmptyString]
  | String c rest =>
      if Ascii.eqb c separator then EmptyString :: split separator rest
      else
        match split separator rest with
        | piece :: pieces => String c piece :: pieces
        | [] => [String c EmptyString]
        end
  end.

(** [pieces.join(glue)] *)
Fixpoint join (glue : string) (pieces : list string) : string :=
  match pieces with
  | [] => EmptyString
  | [piece] => piece
  | piece :: rest => piece +:+ glue +:+ join glue rest
  end.

(** The text with every character [from] replaced by [to]. *)
Fixpoint replace_all (from to : ascii) (text : string) : string :=
  match text with
  | EmptyString => EmptyString
  | String c rest =>
      String (if Ascii.eqb c from then to else c) (replace_all from to rest)
  end.

(** [source.name.split('_').join(' ')] (line 196). *)
Definition displayName (source : LiquiditySource) : string :=
  join " " (split "_"%char (name source)).



Section Row.

(** [LPMetadata] of [~/constants/lpMetadata]: the icon of a provider, by
    name. *)
Variable LPMetadata : gmap string string.




End Row.

End QuoteInfoView.

(* ===================================================================== *)
(** * The wallet state and the objects it shares
      ([WalletStateProvider], lines 459-488 and 508-532) *)
(* ===================================================================== *)

Module WalletStore.

Import Types Wallet.

Section Store.

Variables Exchange GasEstimate : Type.

(** [{ ...state, tokenSpotPrices: value }]; the reducer has no case that
    writes this member. *)
Definition with_tokenSpotPrices (state : WalletState Exchange GasEstimate)
    (value : Registry) : WalletState Exchange GasEstimate :=
  {| tokenBalances := tokenBalances state;
     tokenSpotPrices := value;
     tokenList := tokenList state;
     selectedAccount := selectedAccount state;
     selectedNetwork := selectedNetwork state;
     isConnected := isConnected state;
     supportedNetworks := supportedNetworks state;
     braveWalletAccounts := braveWalletAccounts state;
     supportedExchanges := supportedExchanges state;
     userSelectedExchanges := userSelectedExchanges state;
     networkFeeEstimates := networkFeeEstimates state;
     defaultBaseCurrency := defaultBaseCurrency state;
     isNetworkSupported := isNetworkSupported state |}.

(** The wallet state as JavaScript holds it.  The members [tokenBalances]
    and [tokenSpotPrices] are references to objects of a store, so that an
    assignment [prices[key] = result] is seen through every reference to the
    object; [plain] carries the other members, and its two registries are
    not read. *)
Record Shared : Type := {
  objects : gmap positive Registry;
  tokenBalancesRef : positive;
  tokenSpotPricesRef : positive;
  plain : WalletState Exchange GasEstimate
}.

(** The object behind a reference. *)
Definition deref (store : gmap positive Registry) (ref : positive) : Registry :=
  default ∅ (store !! ref).

(** The state a reader of the context sees: each reference replaced by the
    present content of its object. *)
Definition view (w : Shared) : WalletState Exchange GasEstimate :=
  with_tokenSpotPrices
    (with_tokenBalances (plain w) (deref (objects w) (tokenBalancesRef w)))
    (deref (objects w) (tokenSpotPricesRef w)).

(** [initialState]: its two registries are two distinct empty objects. *)
Definition initialShared : Shared :=
  {| objects := {[ 1%positive := ∅; 2%positive := ∅ ]};
     tokenBalancesRef := 1;
     tokenSpotPricesRef := 2;
     plain := initialState |}.

(** Both references of the state point into the store. *)
Definition valid (w : Shared) : Prop :=
  is_Some (objects w !! tokenBalancesRef w) /\
  is_Some (objects w !! tokenSpotPricesRef w).

(** A dispatched action: the payload of the two registry actions is an
    object of the store; every other action carries its payload by value. *)
Inductive Dispatched : Type :=
| dispatchTokenBalances (payload : positive)
| dispatchTokenSpotPrices (payload : positive)
| dispatchOther (action : WalletActions Exchange GasEstimate).



(** [WalletReducer] on the state with references.  The spread of
    ['updateTokenBalances'] builds a new object; ['updateTokenSpotPrices']
    stores the payload object itself as [tokenBalances]. *)
Definition reduce (w : Shared) (d : Dispatched) : Shared :=
  match d with
  | dispatchTokenBalances payload =>
      let merged :=
        spread (deref (objects w) (tokenBalancesRef w)) (deref (objects w) payload) in
      let created := fresh (dom (objects w)) in
      {| objects := <[created := merged]> (objects w);
         tokenBalancesRef := created;
         tokenSpotPricesRef := tokenSpotPricesRef w;
         plain := plain w |}
  | dispatchTokenSpotPrices payload =>
      {| objects := objects w;
         tokenBalancesRef := payload;
         tokenSpotPricesRef := tokenSpotPricesRef w;
         plain := plain w |}
  | dispatchOther action =>
      {| objects := objects w;
         tokenBalancesRef := tokenBalancesRef w;
         tokenSpotPricesRef := tokenSpotPricesRef w;
         plain := WalletReducer (plain w) action |}
  end.

(** [prices[key] = result] *)
Definition assign (prices : positive) (key result : string) (w : Shared) : Shared :=
  {| objects := <[prices := <[key := result]> (deref (objects w) prices)]> (objects w);
     tokenBalancesRef := tokenBalancesRef w;
     tokenSpotPricesRef := tokenSpotPricesRef w;
     plain := plain w |}.

(** The callback of a resolved [getTokenPrice] (lines 469-472 and 481-484):
    [prices[key] = result] and then
    [dispatch({ type: 'updateTokenSpotPrices', payload: prices })], where
    [prices] is the object the effect read from [state.tokenSpotPrices]. *)
Definition onTokenPrice (prices : positive) (key result : string) (w : Shared) : Shared :=
  reduce (assign prices key result w) (dispatchTokenSpotPrices prices).

(** The continuation of a resolved balance (lines 524-527):
    [dispatch({ type: 'updateTokenBalances', payload: { [key]: balance } })],
    with [key] the lower-cased contract address and [balance] the normalized
    result. *)
Definition onTokenBalance (key balance : string) (w : Shared) : Shared :=
  let payload := fresh (dom (objects w)) in
  reduce {| objects := <[payload := {[ key := balance ]}]> (objects w);
            tokenBalancesRef := tokenBalancesRef w;
            tokenSpotPricesRef := tokenSpotPricesRef w;
            plain := plain w |}
         (dispatchTokenBalances payload).

(** A fetch of the provider that has resolved. *)
Inductive Resolution : Type :=
| PriceResolved (key result : string)
| BalanceResolved (key balance : string).

(** The state after one resolution; the price callback writes to the object
    that [state.tokenSpotPrices] refers to. *)
Definition resolve (w : Shared) (r : Resolution) : Shared :=
  match r with
  | PriceResolved key result => onTokenPrice (tokenSpotPricesRef w) key result w
  | BalanceResolved key balance => onTokenBalance key balance w
  end.

(** [NATIVE_ASSET_CONTRACT_ADDRESS_0X] of [~/constants/magics]. *)
Variable NATIVE_ASSET_CONTRACT_ADDRESS_0X : string.

(** [!registry[key]]: the key is missing or its value is the empty
    string. *)
Definition missing (registry : Registry) (key : string) : bool :=
  match registry !! key with
  | Some value => String.eqb value ""
  | None => true
  end.

(** The keys whose price the second effect asks for (lines 459-488): no key
    unless there are tokens and networks and the native asset has no price
    yet; then the contract address of every token, followed by the symbol of
    every supported network. *)
Definition priceRequests (state : WalletState Exchange GasEstimate) : list string :=
  if negb (Nat.eqb (length (tokenList state)) 0)
     && missing (tokenSpotPrices state) NATIVE_ASSET_CONTRACT_ADDRESS_0X
     && negb (Nat.eqb (length (supportedNetworks state)) 0)
  then map contractAddress (tokenList state)
       ++ map networkSymbol (supportedNetworks state)
  else [].

End Store.

Arguments initialShared {Exchange GasEstimate}.

End WalletStore.

(* ===================================================================== *)
(** * The member each reducer case writes *)
(* ===================================================================== *)

Module WalletMembers.

Import Types Wallet.

(** The members of [WalletState]. *)
Inductive Member : Type :=
| memberTokenBalances
| memberTokenSpotPrices
| memberTokenList
| memberSelectedAccount
| memberSelectedNetwork
| memberIsConnected
| memberSupportedNetworks
| memberBraveWalletAccounts
| memberSupportedExchanges
| memberUserSelectedExchanges
| memberNetworkFeeEstimates
| memberDefaultBaseCurrency
| memberIsNetworkSupported.

Section Members.

Variables Exchange GasEstimate : Type.

(** The member that the case of [action] assigns in the object it returns
    (lines 339-364); the [default] case assigns none. *)
Definition written (action : WalletActions Exchange GasEstimate) : option Member :=
  match action with
  | @updateTokenBalances _ _ _ => Some memberTokenBalances
  | @updateTokenSpotPrices _ _ _ => Some memberTokenBalances
  | @updateTokenList _ _ _ => Some memberTokenList
  | @updateSelectedNetwork _ _ _ => Some memberSelectedNetwork
  | @updateSupportedNetworks _ _ _ => Some memberSupportedNetworks
  | @updateIsNetworkSupported _ _ _ => Some memberIsNetworkSupported
  | @updateSelectedAccount _ _ _ => Some memberSelectedAccount
  | @updateBraveWalletAccounts _ _ _ => Some memberBraveWalletAccounts
  | @updateSupportedExchanges _ _ _ => Some memberSupportedExchanges
  | @updateUserSelectedExchanges _ _ _ => Some memberUserSelectedExchanges
  | @updateNetworkFeeEstimates _ _ _ => Some memberNetworkFeeEstimates
  | @updateDefaultBaseCurrency _ _ _ => Some memberDefaultBaseCurrency
  | @setIsConnected _ _ _ => Some memberIsConnected
  | @otherAction _ _ _ => None
  end.

(** A case that assigns its payload as it is; ['updateTokenBalances'] merges
    it instead. *)
Definition assigns_payload (action : WalletActions Exchange GasEstimate) : bool :=
  match action with
  | @updateTokenBalances _ _ _ => false
  | @otherAction _ _ _ => false
  | _ => true
  end.


End Members.

End WalletMembers.

(* ===================================================================== *)
(** * Kinds of effects of the Jupiter hook *)
(* ===================================================================== *)

Module JupiterEffects.

Import Types Jupiter.

Section Kinds.

Variable JupiterRoute : Type.

(** An effect that is a line on the console. *)
Definition is_console (effect : Effect JupiterRoute) : bool :=
  match effect with
  | ConsoleLog _ _ _ => true
  | ConsoleError _ _ _ => true
  | _ => false
  end.

(** The value [refresh] resolves to. *)
Definition refresh_result (JupiterErrorResponse : Type)
    (WRAPPED_SOL_CONTRACT_ADDRESS : string)
    (JSON_parse : string -> Completion JupiterErrorResponse)
    (c : Closure JupiterRoute) (overrides : PartialSwapParams)
    (s : HookState JupiterRoute JupiterErrorResponse)
  : option (JupiterQuoteResponse JupiterRoute) :=
  fst (refresh WRAPPED_SOL_CONTRACT_ADDRESS JSON_parse c overrides (start s)).

End Kinds.

End JupiterEffects.

(* ===================================================================== *)
(** * Sample data *)
(* ===================================================================== *)

Module Samples.

Import Types.

Definition sol : BlockchainToken :=
  {| contractAddress := ""; symbol := "SOL"; isToken := false; chainId := "0x65" |}.

Definition usdc : BlockchainToken :=
  {| contractAddress := "EPjFWdd5AufqSSqeM2qN1xzybapC8G4wEGGkZwyTDt1v";
     symbol := "USDC"; isToken := true; chainId := "0x65" |}.

Definition solana_mainnet : NetworkInfo :=
  {| coin := Solana; networkChainId := "0x65"; networkSymbol := "SOL" |}.

Definition ethereum_mainnet : NetworkInfo :=
  {| coin := OtherCoin 60; networkChainId := "0x1"; networkSymbol := "ETH" |}.

Definition account : WalletAccount :=
  {| address := "4Nd1mYw4r1xK6tJ2nq6V6kLxwC3bZ9s7"; accountCoin := Solana |}.

(** A quote option at the rate [r]. *)
Definition quoted (r : Q) : QuoteInfo.QuoteOption :=
  {| QuoteInfo.fromToken := sol; QuoteInfo.toToken := usdc; QuoteInfo.rate := r;
     QuoteInfo.impact := 0%Q; QuoteInfo.minimumToAmount := 0%Q;
     QuoteInfo.sources := []; QuoteInfo.routing := QuoteInfo.single |}.

(** A wallet state that holds one balance and no spot price, and a payload
    of one spot price. *)
Definition wallet_with_balance : Wallet.WalletState unit unit :=
  Wallet.with_tokenBalances Wallet.initialState {[ "0xabc" := "5" ]}.

Definition price_payload : Registry := {[ "ETH" := "1800" ]}.

(** Routes and error responses stand for themselves as strings. *)
Definition wrapped_sol : string := "So11111111111111111111111111111111111111112".

Definition parse_any (text : string) : Jupiter.Completion string :=
  Jupiter.Returned text.

Definition two_routes : Jupiter.JupiterQuoteResponse string :=
  {| Jupiter.routes := ["route-A"; "route-B"] |}.

Definition swap_transactions : Jupiter.JupiterSwapTransactions :=
  {| Jupiter.setupTransaction := None;
     Jupiter.swapTransaction := "AQAB";
     Jupiter.cleanupTransaction := None |}.

Definition answering_service : Jupiter.SwapService string :=
  {| Jupiter.getJupiterQuote := fun _ => Jupiter.Returned two_routes;
     Jupiter.getJupiterTransactionsPayload := fun _ => Jupiter.Returned swap_transactions |}.

Definition rejecting_adapter : Jupiter.SolWalletAdapter :=
  {| Jupiter.sendTransaction := fun _ => Jupiter.Thrown {| Jupiter.message := "User rejected" |} |}.

Definition swap_params (fromAmount : string) : Jupiter.SwapParams :=
  {| Jupiter.fromToken := Some sol; Jupiter.toToken := Some usdc;
     Jupiter.fromAmount := fromAmount; Jupiter.slippagePercentage := 0.5%Q |}.

(** The closure of a hook rendered on [network] for [fromAmount]. *)
Definition closure (network : option NetworkInfo) (fromAmount : string)
  : Jupiter.Closure string :=
  {| Jupiter.params := swap_params fromAmount;
     Jupiter.swapService := answering_service;
     Jupiter.solWalletAdapter := rejecting_adapter;
     Jupiter.selectedNetwork := network;
     Jupiter.selectedAccount := Some account |}.

(** A hook that holds a quote and an error from earlier calls. *)
Definition stale : Jupiter.HookState string string :=
  {| Jupiter.quote := Some two_routes;
     Jupiter.error := Some "No routes found";
     Jupiter.loading := false;
     Jupiter.selectedRoute := None |}.

(** A hook that holds no quote. *)
Definition idle : Jupiter.HookState string string :=
  {| Jupiter.quote := None;
     Jupiter.error := None;
     Jupiter.loading := false;
     Jupiter.selectedRoute := None |}.

End Samples.

(* ===================================================================== *)
(** * More sample data *)
(* ===================================================================== *)

Module MoreSamples.

Import Types Samples.

(** A service whose two calls fail. *)
Definition failing_service : Jupiter.SwapService string :=
  {| Jupiter.getJupiterQuote :=
       fun _ => Jupiter.Thrown {| Jupiter.message := "No routes found" |};
     Jupiter.getJupiterTransactionsPayload :=
       fun _ => Jupiter.Thrown {| Jupiter.message := "Bad request" |} |}.

(** The closure of a hook on Solana whose service fails. *)
Definition failing_closure (fromAmount : string) : Jupiter.Closure string :=
  {| Jupiter.params := swap_params fromAmount;
     Jupiter.swapService := failing_service;
     Jupiter.solWalletAdapter := rejecting_adapter;
     Jupiter.selectedNetwork := Some solana_mainnet;
     Jupiter.selectedAccount := Some account |}.

(** A hook with a selected route that no quote of the samples offers. *)
Definition selected_elsewhere : Jupiter.HookState string string :=
  {| Jupiter.quote := None;
     Jupiter.error := None;
     Jupiter.loading := false;
     Jupiter.selectedRoute := Some "route-Z" |}.

End MoreSamples.

(* ===================================================================== *)
(** * Properties of the quote display *)
(* ===================================================================== *)

Module QuoteInfoProperties.

Import Types QuoteInfo Samples.
Local Open Scope Q_scope.

Lemma truthy_nonzero (price : Q) : truthy price = true <-> ~ price == 0.
Proof.
  unfold truthy. destruct (Qeq_bool price 0) eqn:E; simpl.
  - apply Qeq_bool_iff in E. split; [discriminate | contradiction].
  - apply Qeq_bool_neq in E. split; auto.
Qed.

Lemma truthy_compat (p q : Q) : p == q -> truthy p = truthy q.
Proof. intros E. unfold truthy. now rewrite E. Qed.

Lemma gte_spec (a b : Amount.t) : Amount.gte a b = true <-> b <= a.
Proof. unfold Amount.gte. apply Qle_bool_iff. Qed.

Lemma gte_false (a b : Amount.t) : Amount.gte a b = false <-> a < b.
Proof.
  rewrite <- not_true_iff_false, gte_spec. split.
  - apply Qnot_le_lt.
  - apply Qlt_not_le.
Qed.

(** The delta of a rendering with everything defined and truthy prices, as
    the expression of lines 92-101. *)
Lemma coinGeckoDelta_defined spotPrices fromToken toToken option toAmount :
  truthy (makerAsset spotPrices) = true ->
  truthy (takerAsset spotPrices) = true ->
  coinGeckoDelta spotPrices (all_defined fromToken toToken option toAmount)
  = (rate option - makerAsset spotPrices / takerAsset spotPrices) / rate option * 100.
Proof.
  intros Hm Ht. unfold coinGeckoDelta, all_defined; simpl.
  rewrite Hm, Ht. reflexivity.
Qed.

(** A positive quotient has a non-zero numerator and denominator. *)
Lemma positive_quotient (a b : Q) : 0 < a / b -> ~ a == 0 /\ ~ b == 0.
Proof.
  intros H. split; intros E; rewrite E in H.
  - unfold Qdiv in H. rewrite Qmult_0_l in H. now apply Qlt_irrefl in H.
  - unfold Qdiv, Qinv in H. simpl in H. rewrite Qmult_0_r in H.
    now apply Qlt_irrefl in H.
Qed.

(** C1. With fromToken, toToken and the selected quote option defined and
    non-zero spot prices for the maker and the taker asset, the displayed
    CoinGecko delta is (R_quote - R_ref) / R_quote * 100, where
    R_ref = spotPrice(FROM) / spotPrice(TO) and R_quote is the rate of the
    quote option.  For the prices 100 and 50 and the rate 2.2 the delta is
    100/11, which lies between 9.09 and 9.10. *)
Theorem coinGeckoDelta_formula
    (spotPrices : SpotPrices) (fromToken toToken : BlockchainToken)
    (option : QuoteOption) (toAmount : string) :
  ~ makerAsset spotPrices == 0 ->
  ~ takerAsset spotPrices == 0 ->
  let delta :=
    coinGeckoDelta spotPrices (all_defined fromToken toToken option toAmount) in
  delta = spec_delta (rate option)
            (spec_reference_rate (makerAsset spotPrices) (takerAsset spotPrices))
  /\ (makerAsset spotPrices == 100 -> takerAsset spotPrices == 50 ->
      rate option == 2.2 ->
      delta == 100 # 11 /\ 9.09 <= delta /\ delta < 9.10).
Proof.
  intros Hm Ht delta.
  assert (E : delta = (rate option - makerAsset spotPrices / takerAsset spotPrices)
                      / rate option * 100).
  { apply coinGeckoDelta_defined; now apply truthy_nonzero. }
  split; [exact E |].
  intros H100 H50 Hrate. rewrite E, H100, H50, Hrate.
  repeat split; vm_compute; congruence.
Qed.

Lemma coinGeckoDelta_formula_witness :
  let spotPrices := {| makerAsset := 100; takerAsset := 50 |} in
  let delta := coinGeckoDelta spotPrices (all_defined sol usdc (quoted 2.2) "1") in
  delta == 100 # 11 /\ 9.09 <= delta /\ delta < 9.10.
Proof.
  intros spotPrices delta.
  apply (@coinGeckoDelta_formula spotPrices sol usdc (quoted 2.2) "1");
    vm_compute; congruence.
Defined.

(** C2. The delta text is "cheaper" exactly when delta >= 0, "within"
    exactly when -1 <= delta < 0, and "more expensive" in every other case,
    that is exactly when delta < -1; a delta of 0 is "cheaper" and a delta
    of exactly -1 is "within". *)
Theorem coinGeckoDeltaText_classification (delta : Amount.t) :
  (template (coinGeckoDeltaText delta) = braveSwapCoinGeckoCheaper <-> 0 <= delta) /\
  (template (coinGeckoDeltaText delta) = braveSwapCoinGeckoWithin
     <-> -1 <= delta /\ delta < 0) /\
  (template (coinGeckoDeltaText delta) = braveSwapCoinGeckoExpensive
     <-> ~ 0 <= delta /\ ~ (-1 <= delta /\ delta < 0)) /\
  (template (coinGeckoDeltaText delta) = braveSwapCoinGeckoExpensive <-> delta < -1) /\
  template (coinGeckoDeltaText 0) = braveSwapCoinGeckoCheaper /\
  template (coinGeckoDeltaText (-1)) = braveSwapCoinGeckoWithin.
Proof.
  unfold coinGeckoDeltaText.
  destruct (Amount.gte delta 0) eqn:E0; [| destruct (Amount.gte delta (-1)) eqn:E1];
    simpl;
    repeat match goal with
           | H : Amount.gte _ _ = true |- _ => apply gte_spec in H
           | H : Amount.gte _ _ = false |- _ => apply gte_false in H
           end;
    repeat split; try discriminate; try reflexivity; try lra;
    try (intros; exfalso; lra).
Qed.

(** C3. The delta colour is success exactly when delta >= -1, warning
    exactly when -5 <= delta < -1, and error in every other case, that is
    exactly when delta < -5. *)
Theorem coinGeckoDeltaColor_classification (delta : Amount.t) :
  (coinGeckoDeltaColor delta = success <-> -1 <= delta) /\
  (coinGeckoDeltaColor delta = warning <-> -5 <= delta /\ delta < -1) /\
  (coinGeckoDeltaColor delta = error
     <-> ~ -1 <= delta /\ ~ (-5 <= delta /\ delta < -1)) /\
  (coinGeckoDeltaColor delta = error <-> delta < -5).
Proof.
  unfold coinGeckoDeltaColor.
  destruct (Amount.gte delta (-1)) eqn:E1; [| destruct (Amount.gte delta (-5)) eqn:E5];
    repeat match goal with
           | H : Amount.gte _ _ = true |- _ => apply gte_spec in H
           | H : Amount.gte _ _ = false |- _ => apply gte_false in H
           end;
    repeat split; try discriminate; try reflexivity; try lra;
    try (intros; exfalso; lra).
Qed.

Lemma defined_all_the_same spotPrices spotPrices' props props' :
  same_inputs spotPrices spotPrices' props props' ->
  defined (propsFromToken props) && defined (propsToToken props)
    && truthy (makerAsset spotPrices) && truthy (takerAsset spotPrices)
  = defined (propsFromToken props') && defined (propsToToken props')
    && truthy (makerAsset spotPrices') && truthy (takerAsset spotPrices').
Proof.
  intros (Hm & Ht & Hf & Hto & _).
  now rewrite Hf, Hto, (truthy_compat Hm), (truthy_compat Ht).
Qed.

(** C7. The delta is a function of its inputs: two renderings fed the same
    numbers display the same delta.  It is scale-invariant: for positive
    R_quote and R_ref = spotPrice(FROM) / spotPrice(TO), a rendering whose
    quoted rate and reference rate are both k times as large, k positive,
    displays the same delta. *)
Theorem coinGeckoDelta_deterministic_scale_invariant :
  (forall spotPrices spotPrices' props props',
      same_inputs spotPrices spotPrices' props props' ->
      coinGeckoDelta spotPrices props == coinGeckoDelta spotPrices' props') /\
  (forall (k : Q) spotPrices spotPrices' fromToken toToken toAmount option option',
      0 < k ->
      0 < rate option ->
      0 < makerAsset spotPrices / takerAsset spotPrices ->
      rate option' == k * rate option ->
      makerAsset spotPrices' / takerAsset spotPrices'
        == k * (makerAsset spotPrices / takerAsset spotPrices) ->
      coinGeckoDelta spotPrices' (all_defined fromToken toToken option' toAmount)
      == coinGeckoDelta spotPrices (all_defined fromToken toToken option toAmount)).
Proof.
  split.
  - intros sp sp' props props' Hsame.
    unfold coinGeckoDelta. rewrite (defined_all_the_same Hsame).
    destruct Hsame as (Hm & Ht & _ & _ & Hopt).
    destruct (_ && _); [| reflexivity].
    destruct (selectedQuoteOption props) as [o |],
             (selectedQuoteOption props') as [o' |];
      try contradiction; try reflexivity.
    unfold Amount.times, Amount.div, Amount.minus, Amount.new.
    now rewrite Hm, Ht, Hopt.
  - intros k sp sp' ft tt ta o o' Hk Hrate Href Hrate' Href'.
    assert (Href_pos' : 0 < makerAsset sp' / takerAsset sp').
    { rewrite Href'. apply Qmult_lt_0_compat; assumption. }
    destruct (positive_quotient Href) as [Hm Ht].
    destruct (positive_quotient Href_pos') as [Hm' Ht'].
    rewrite !coinGeckoDelta_defined by now apply truthy_nonzero.
    rewrite Href', Hrate'.
    field. repeat split; lra.
Qed.

Lemma coinGeckoDelta_deterministic_scale_invariant_witness :
  coinGeckoDelta {| makerAsset := 300; takerAsset := 50 |}
    (all_defined sol usdc (quoted 6.6) "1")
  == coinGeckoDelta {| makerAsset := 100; takerAsset := 50 |}
       (all_defined sol usdc (quoted 2.2) "1").
Proof.
  apply (proj2 coinGeckoDelta_deterministic_scale_invariant 3);
    vm_compute; congruence.
Defined.

End QuoteInfoProperties.

(* ===================================================================== *)
(** * Properties of the wallet-state reducer *)
(* ===================================================================== *)

Module WalletProperties.

Import Types Wallet Samples.

(** What the case ['updateTokenSpotPrices'] does to the two maps, for every
    state and payload: the payload becomes the balances and the spot prices
    stay as they were. *)
Lemma WalletReducer_updateTokenSpotPrices_maps
    (Exchange GasEstimate : Type) (state : WalletState Exchange GasEstimate)
    (payload : Registry) :
  tokenBalances (WalletReducer state (updateTokenSpotPrices _ _ payload)) = payload /\
  tokenSpotPrices (WalletReducer state (updateTokenSpotPrices _ _ payload))
  = tokenSpotPrices state.
Proof. split; reflexivity. Qed.

(** The case ['updateTokenBalances'] merges its payload into the balances
    and leaves the spot prices alone: the reducer does write the member its
    action names there. *)
Lemma WalletReducer_updateTokenBalances_maps
    (Exchange GasEstimate : Type) (state : WalletState Exchange GasEstimate)
    (payload : Registry) (key : string) :
  tokenBalances (WalletReducer state (updateTokenBalances _ _ payload)) !! key
  = match payload !! key with
    | Some value => Some value
    | None => tokenBalances state !! key
    end /\
  tokenSpotPrices (WalletReducer state (updateTokenBalances _ _ payload))
  = tokenSpotPrices state.
Proof.
  split; [| reflexivity]. simpl. unfold spread.
  rewrite lookup_union. destruct (payload !! key), (tokenBalances state !! key); reflexivity.
Qed.

(** C4. On a state that holds the balance of 0xabc and no spot price, the
    action updateTokenSpotPrices with the price of ETH as payload leaves the
    spot-price map empty, so it is not the payload, and replaces the
    balances by the payload, so the balance of 0xabc is lost. *)
Theorem WalletReducer_updateTokenSpotPrices_overwrites_balances :
  let state' := WalletReducer wallet_with_balance (updateTokenSpotPrices _ _ price_payload) in
  tokenSpotPrices state' = ∅ /\
  tokenSpotPrices state' <> price_payload /\
  tokenSpotPrices state' !! "ETH" = None /\
  tokenBalances state' = price_payload /\
  tokenBalances state' <> tokenBalances wallet_with_balance /\
  tokenBalances wallet_with_balance !! "0xabc" = Some "5" /\
  tokenBalances state' !! "0xabc" = None.
Proof.
  cbn zeta. repeat split; try reflexivity.
  - intros E. apply (f_equal (fun m : Registry => m !! "ETH")) in E.
    vm_compute in E. discriminate.
  - intros E. apply (f_equal (fun m : Registry => m !! "ETH")) in E.
    vm_compute in E. discriminate.
Qed.

End WalletProperties.

(* ===================================================================== *)
(** * Properties of the Jupiter quote hook *)
(* ===================================================================== *)

Module JupiterProperties.

Import Types Jupiter Samples.

(** Unfold a run of a callback down to its state-passing form. *)
Ltac run_callback :=
  unfold run_refresh, run_exchange, refresh, exchange, catch_service_failure,
    setQuote, setError, setLoading, write, perform, read, bind, ret, start.

Lemma coin_is_not_Solana_false (selectedNetwork : option NetworkInfo) :
  coin_is_not_Solana selectedNetwork = false <->
  exists network, selectedNetwork = Some network /\ coin network = Solana.
Proof.
  unfold coin_is_not_Solana. split.
  - destruct selectedNetwork as [network |]; [| discriminate].
    destruct (coin network) eqn:E; simpl; [| discriminate].
    intros _. now exists network.
  - intros (network & -> & ->). reflexivity.
Qed.

Lemma eqb_empty_false (text : string) : String.eqb text "" = false <-> text <> "".
Proof. apply String.eqb_neq. Qed.

Section Callbacks.

Variables JupiterRoute JupiterErrorResponse : Type.
Variable WRAPPED_SOL_CONTRACT_ADDRESS : string.
Variable JSON_parse : string -> Completion JupiterErrorResponse.

Local Abbreviation State := (HookState JupiterRoute JupiterErrorResponse).
Local Abbreviation refreshed :=
  (@run_refresh JupiterRoute JupiterErrorResponse WRAPPED_SOL_CONTRACT_ADDRESS JSON_parse).
Local Abbreviation exchanged :=
  (@run_exchange JupiterRoute JupiterErrorResponse WRAPPED_SOL_CONTRACT_ADDRESS JSON_parse).

(** [refresh] does nothing when the network is not Solana or a token is
    missing. *)
Lemma refresh_early_exit (c : Closure JupiterRoute) overrides (s : State) :
  coin_is_not_Solana (selectedNetwork c) = true \/
  fromToken (spread (params c) overrides) = None \/
  toToken (spread (params c) overrides) = None ->
  refreshed c overrides s = start s.
Proof.
  run_callback. intros [H | [H | H]].
  - now rewrite H.
  - destruct (coin_is_not_Solana _); [reflexivity |]. now rewrite H.
  - destruct (coin_is_not_Solana _); [reflexivity |]. rewrite H.
    now destruct (fromToken _).
Qed.

(** [refresh] with the three guards passed and an empty amount: the quote
    and the error are cleared and nothing else happens. *)
Lemma refresh_clears_on_empty_amount (c : Closure JupiterRoute) overrides (s : State) :
  coin_is_not_Solana (selectedNetwork c) = false ->
  is_Some (fromToken (spread (params c) overrides)) ->
  is_Some (toToken (spread (params c) overrides)) ->
  fromAmount (spread (params c) overrides) = "" ->
  refreshed c overrides s
  = {| cells := {| quote := None; error := None;
                   loading := loading s; selectedRoute := selectedRoute s |};
       effects := [] |}.
Proof.
  intros Hcoin [fromTok Hfrom] [toTok Hto] Hamount.
  run_callback. rewrite Hcoin, Hfrom, Hto, Hamount. reflexivity.
Qed.

(** [refresh] with the three guards passed and an amount: the first effect
    is the quote fetch. *)
Lemma refresh_fetches (c : Closure JupiterRoute) overrides (s : State) :
  refresh_preconditions c overrides ->
  exists args, head (effects (refreshed c overrides s)) = Some (CallGetJupiterQuote _ args).
Proof.
  intros (Hcoin & [fromTok Hfrom] & [toTok Hto] & Hamount).
  apply coin_is_not_Solana_false in Hcoin. apply eqb_empty_false in Hamount.
  run_callback. rewrite Hcoin, Hfrom, Hto, Hamount.
  eexists. simpl.
  destruct (getJupiterQuote _ _) as [response | e]; simpl; [reflexivity |].
  destruct (JSON_parse _); reflexivity.
Qed.

(** [refresh] performs no effect unless its preconditions hold. *)
Lemma refresh_silent_without_preconditions
    (c : Closure JupiterRoute) (overrides : PartialSwapParams) (s : State) :
  ~ refresh_preconditions c overrides -> effects (refreshed c overrides s) = [].
Proof.
  intros Hno.
  destruct (coin_is_not_Solana (selectedNetwork c)) eqn:Hcoin.
  { now rewrite refresh_early_exit by auto. }
  destruct (fromToken (spread (params c) overrides)) as [fromTok |] eqn:Hfrom;
    [| now rewrite refresh_early_exit by auto].
  destruct (toToken (spread (params c) overrides)) as [toTok |] eqn:Hto;
    [| now rewrite refresh_early_exit by auto].
  destruct (String.eqb (fromAmount (spread (params c) overrides)) "") eqn:Hamount.
  - apply String.eqb_eq in Hamount.
    now rewrite refresh_clears_on_empty_amount by (rewrite ?Hfrom, ?Hto; eauto).
  - exfalso. apply Hno. unfold refresh_preconditions. rewrite Hfrom, Hto.
    apply coin_is_not_Solana_false in Hcoin. apply eqb_empty_false in Hamount.
    repeat split; eauto.
Qed.

(** C8. A run of refresh performs the aggregator's quote fetch only when
    the selected network's coin is Solana, fromToken and toToken are both
    present and fromAmount is not empty; when one of these fails the run
    performs no effect at all. *)
Theorem refresh_fetch_needs_preconditions
    (c : Closure JupiterRoute) (overrides : PartialSwapParams) (s : State) :
  (forall args, In (CallGetJupiterQuote JupiterRoute args) (effects (refreshed c overrides s)) ->
                refresh_preconditions c overrides) /\
  (~ refresh_preconditions c overrides -> effects (refreshed c overrides s) = []).
Proof.
  split; [| apply refresh_silent_without_preconditions].
  intros args Hin.
  destruct (coin_is_not_Solana (selectedNetwork c)) eqn:Hcoin.
  { rewrite refresh_early_exit in Hin by auto. destruct Hin. }
  destruct (fromToken (spread (params c) overrides)) as [fromTok |] eqn:Hfrom;
    [| rewrite refresh_early_exit in Hin by auto; destruct Hin].
  destruct (toToken (spread (params c) overrides)) as [toTok |] eqn:Hto;
    [| rewrite refresh_early_exit in Hin by auto; destruct Hin].
  destruct (String.eqb (fromAmount (spread (params c) overrides)) "") eqn:Hamount.
  - apply String.eqb_eq in Hamount.
    rewrite refresh_clears_on_empty_amount in Hin by (rewrite ?Hfrom, ?Hto; eauto).
    destruct Hin.
  - unfold refresh_preconditions. rewrite Hfrom, Hto.
    apply coin_is_not_Solana_false in Hcoin. apply eqb_empty_false in Hamount.
    repeat split; eauto.
Qed.

(** C5, as the code has it. A refresh with an empty fromAmount performs no
    effect, so it issues no call to the aggregator service; when the
    selected network's coin is Solana and fromToken and toToken are both
    present, it clears the stored quote and the stored error to undefined
    and leaves the loading flag and the selected route as they were. *)
Theorem refresh_with_empty_amount
    (c : Closure JupiterRoute) (overrides : PartialSwapParams) (s : State) :
  fromAmount (spread (params c) overrides) = "" ->
  effects (refreshed c overrides s) = [] /\
  ((exists network, selectedNetwork c = Some network /\ coin network = Solana) ->
   is_Some (fromToken (spread (params c) overrides)) ->
   is_Some (toToken (spread (params c) overrides)) ->
   quote (cells (refreshed c overrides s)) = None /\
   error (cells (refreshed c overrides s)) = None /\
   loading (cells (refreshed c overrides s)) = loading s /\
   selectedRoute (cells (refreshed c overrides s)) = selectedRoute s).
Proof.
  intros Hamount. split.
  - apply refresh_silent_without_preconditions.
    intros (_ & _ & _ & Hne). contradiction.
  - intros Hcoin Hfrom Hto. apply coin_is_not_Solana_false in Hcoin.
    rewrite refresh_clears_on_empty_amount by assumption. repeat split.
Qed.

(** [exchange] does nothing when one of its four guards stops it. *)
Lemma exchange_early_exit (c : Closure JupiterRoute) (s : State) :
  quote s = None \/
  (exists q, quote s = Some q /\ routes q = []) \/
  coin_is_not_Solana (selectedNetwork c) = true \/
  toToken (params c) = None \/
  selectedAccount c = None ->
  exchanged c s = start s.
Proof.
  run_callback. cbn [cells effects snd].
  intros [H | [(q & H & Hroutes) | [H | [H | H]]]].
  - now rewrite H.
  - now rewrite H, Hroutes.
  - destruct (quote s) as [q |]; [| reflexivity].
    destruct (_ =? _)%nat; [reflexivity |]. now rewrite H.
  - destruct (quote s) as [q |]; [| reflexivity].
    destruct (_ =? _)%nat; [reflexivity |].
    destruct (coin_is_not_Solana _); [reflexivity |]. now rewrite H.
  - destruct (quote s) as [q |]; [| reflexivity].
    destruct (_ =? _)%nat; [reflexivity |].
    destruct (coin_is_not_Solana _); [reflexivity |]. rewrite H.
    now destruct (toToken _).
Qed.

(** [exchange] past its guards, path by path: the payload request, then
    either the failure handling of the service or the hand-over to the wallet
    adapter. *)
Lemma exchange_past_guards (c : Closure JupiterRoute) (s : State)
    q first rest toTok account :
  quote s = Some q ->
  routes q = first :: rest ->
  coin_is_not_Solana (selectedNetwork c) = false ->
  toToken (params c) = Some toTok ->
  selectedAccount c = Some account ->
  let args :=
    {| userPublicKey := address account;
       route := Some (match selectedRoute s with
                      | Some chosen => chosen
                      | None => first
                      end);
       swapOutputMint := or_else (contractAddress toTok) WRAPPED_SOL_CONTRACT_ADDRESS |} in
  let idle_again (error' : option JupiterErrorResponse) :=
    {| quote := Some q; error := error'; loading := false;
       selectedRoute := selectedRoute s |} in
  exchanged c s =
  match getJupiterTransactionsPayload (swapService c) args with
  | Returned response =>
      let sent :=
        {| encodedTransaction := swapTransaction response;
           from := address account;
           sendOptions := {| skipPreflight := true |} |} in
      match sendTransaction (solWalletAdapter c) sent with
      | Returned _ =>
          {| cells := idle_again (error s);
             effects := [CallGetJupiterTransactionsPayload args;
                         CallSendTransaction _ sent] |}
      | Thrown e =>
          {| cells := idle_again (error s);
             effects := [CallGetJupiterTransactionsPayload args;
                         CallSendTransaction _ sent;
                         ConsoleError _ "Error creating Solana transaction: " e] |}
      end
  | Thrown e =>
      match JSON_parse (message e) with
      | Returned err =>
          {| cells := idle_again (Some err);
             effects := [CallGetJupiterTransactionsPayload args;
                         ConsoleLog _ "Error getting Jupiter swap transactions: " e] |}
      | Thrown e' =>
          {| cells := idle_again (error s);
             effects := [CallGetJupiterTransactionsPayload args;
                         ConsoleLog _ "Error getting Jupiter swap transactions: " e;
                         ConsoleError _ "Error parsing Jupiter response: " e'] |}
      end
  end.
Proof.
  intros Hquote Hroutes Hcoin HtoTok Haccount args idle_again.
  subst args idle_again. run_callback. cbn [cells effects snd].
  rewrite Hquote, Hroutes, Hcoin, HtoTok, Haccount. cbn [length Nat.eqb].
  destruct (selectedRoute s) as [chosen |] eqn:Hchosen; simpl;
    (destruct (getJupiterTransactionsPayload _ _) as [response | e]; simpl;
     [ destruct (sendTransaction _ _) as [[] | e]
     | destruct (JSON_parse _) as [err | e'] ];
     simpl; rewrite ?Hquote, ?Hchosen; reflexivity).
Qed.

(** Every run of [exchange] is stopped by a guard or passes all four. *)
Lemma exchange_guards (c : Closure JupiterRoute) (s : State) :
  exchanged c s = start s \/
  exists q first rest toTok account,
    quote s = Some q /\ routes q = first :: rest /\
    coin_is_not_Solana (selectedNetwork c) = false /\
    toToken (params c) = Some toTok /\ selectedAccount c = Some account.
Proof.
  destruct (quote s) as [q |] eqn:Hquote;
    [| left; apply exchange_early_exit; auto].
  destruct (routes q) as [| first rest] eqn:Hroutes;
    [left; apply exchange_early_exit; right; left; eauto |].
  destruct (coin_is_not_Solana (selectedNetwork c)) eqn:Hcoin;
    [left; apply exchange_early_exit; auto |].
  destruct (toToken (params c)) as [toTok |] eqn:HtoTok;
    [| left; apply exchange_early_exit; auto].
  destruct (selectedAccount c) as [account |] eqn:Haccount;
    [| left; apply exchange_early_exit; auto 6].
  right. exists q, first, rest, toTok, account. auto.
Qed.

(** C6. When the quote is absent or its route list is empty, exchange is a
    no-op: it performs no effect, so it calls neither the wallet adapter nor
    the swap service, and the quote, the error, the loading flag and the
    selected route are as they were. *)
Theorem exchange_without_routes_is_noop (c : Closure JupiterRoute) (s : State) :
  quote s = None \/ (exists q, quote s = Some q /\ routes q = []) ->
  effects (exchanged c s) = [] /\ cells (exchanged c s) = s.
Proof.
  intros H. rewrite exchange_early_exit; [split; reflexivity |].
  destruct H; auto.
Qed.

(** C9. In a run of exchange that calls the wallet adapter's
    sendTransaction and sees it fail, the failure is logged and nothing
    more: the last effect is the console error carrying the failure, the
    error cell holds what it held before the run, and so do the quote and
    the selected route. *)
Theorem exchange_adapter_failure_only_logged
    (c : Closure JupiterRoute) (s : State)
    (sent : SendSolanaTransactionParams) (e : Exception) :
  In (CallSendTransaction JupiterRoute sent) (effects (exchanged c s)) ->
  sendTransaction (solWalletAdapter c) sent = Thrown e ->
  error (cells (exchanged c s)) = error s /\
  quote (cells (exchanged c s)) = quote s /\
  selectedRoute (cells (exchanged c s)) = selectedRoute s /\
  loading (cells (exchanged c s)) = false /\
  last (effects (exchanged c s))
  = Some (ConsoleError JupiterRoute "Error creating Solana transaction: " e).
Proof.
  destruct (exchange_guards c s)
    as [Hstop | (q & first & rest & toTok & account & Hq & Hr & Hc & Ht & Ha)].
  { rewrite Hstop. intros []. }
  rewrite (exchange_past_guards Hq Hr Hc Ht Ha). cbv zeta.
  destruct (getJupiterTransactionsPayload _ _) as [response | failure].
  - destruct (sendTransaction (solWalletAdapter c) _) as [[] | e0] eqn:Hsend;
      simpl; intros Hin Hthrown;
      repeat (destruct Hin as [Hin | Hin]; try discriminate);
      try contradiction;
      injection Hin as <-; rewrite Hsend in Hthrown; [discriminate |].
    injection Hthrown as <-. rewrite Hq. repeat split.
  - destruct (JSON_parse _) as [err | e'];
      simpl; intros Hin; repeat (destruct Hin as [Hin | Hin]; try discriminate);
      contradiction.
Qed.

(** C10. When exchange passes its guards, the first effect of the run is
    the request for the transactions payload, its route is the selected
    route if one is set and the first route of the quote otherwise, and the
    run makes no other such request. *)
Theorem exchange_submits_selected_or_first_route
    (c : Closure JupiterRoute) (s : State)
    (q : JupiterQuoteResponse JupiterRoute) (first : JupiterRoute)
    (rest : list JupiterRoute) (network : NetworkInfo)
    (toTok : BlockchainToken) (account : WalletAccount) :
  quote s = Some q ->
  routes q = first :: rest ->
  selectedNetwork c = Some network ->
  coin network = Solana ->
  toToken (params c) = Some toTok ->
  selectedAccount c = Some account ->
  exists args,
    head (effects (exchanged c s)) = Some (CallGetJupiterTransactionsPayload args) /\
    route args = Some (match selectedRoute s with
                       | Some chosen => chosen
                       | None => first
                       end) /\
    forall args',
      In (CallGetJupiterTransactionsPayload args') (effects (exchanged c s)) ->
      args' = args.
Proof.
  intros Hq Hr Hnetwork Hcoin Ht Ha.
  assert (Hc : coin_is_not_Solana (selectedNetwork c) = false)
    by (apply coin_is_not_Solana_false; eauto).
  rewrite (exchange_past_guards Hq Hr Hc Ht Ha). cbv zeta.
  exists {| userPublicKey := address account;
            route := Some (match selectedRoute s with
                           | Some chosen => chosen
                           | None => first
                           end);
            swapOutputMint :=
              or_else (contractAddress toTok) WRAPPED_SOL_CONTRACT_ADDRESS |}.
  split; [| split; [reflexivity |]].
  - destruct (getJupiterTransactionsPayload _ _) as [response | failure];
      [destruct (sendTransaction _ _) as [[] | e] | destruct (JSON_parse _)];
      reflexivity.
  - intros args'.
    destruct (getJupiterTransactionsPayload _ _) as [response | failure];
      [destruct (sendTransaction _ _) as [[] | e] | destruct (JSON_parse _)];
      simpl; intros Hin;
      repeat (destruct Hin as [Hin | Hin]; try discriminate);
      try contradiction; now injection Hin.
Qed.

End Callbacks.

(** C5, as stated, fails off Solana: on Ethereum a refresh with an empty
    fromAmount returns at the first guard and the stored quote and error
    stay. *)
Lemma refresh_off_Solana_keeps_stale_quote :
  let c := closure (Some ethereum_mainnet) "" in
  let after := run_refresh wrapped_sol parse_any c no_overrides stale in
  fromAmount (spread (params c) no_overrides) = "" /\
  quote (cells after) = Some two_routes /\
  error (cells after) = Some "No routes found" /\
  ~ (quote (cells after) = None /\ error (cells after) = None).
Proof.
  cbv zeta. repeat split; try reflexivity.
  intros [H _]. vm_compute in H. discriminate.
Qed.

Lemma refresh_with_empty_amount_witness :
  let c := closure (Some solana_mainnet) "" in
  let after := run_refresh wrapped_sol parse_any c no_overrides stale in
  effects after = [] /\ quote (cells after) = None /\ error (cells after) = None.
Proof.
  cbv zeta.
  destruct (@refresh_with_empty_amount string string wrapped_sol parse_any
              (closure (Some solana_mainnet) "") no_overrides stale)
    as [Hsilent Hclears]; [reflexivity |].
  destruct Hclears as (Hquote & Herror & _).
  - exists solana_mainnet. split; reflexivity.
  - exists sol. reflexivity.
  - exists usdc. reflexivity.
  - repeat split; assumption.
Defined.

Lemma refresh_fetch_needs_preconditions_witness :
  refresh_preconditions (closure (Some solana_mainnet) "1000") no_overrides /\
  effects (run_refresh wrapped_sol parse_any
             (closure (Some ethereum_mainnet) "1000") no_overrides stale) = [].
Proof.
  split.
  - eapply (proj1 (@refresh_fetch_needs_preconditions string string wrapped_sol
                     parse_any (closure (Some solana_mainnet) "1000")
                     no_overrides stale)).
    left. reflexivity.
  - apply (proj2 (@refresh_fetch_needs_preconditions string string wrapped_sol
                    parse_any (closure (Some ethereum_mainnet) "1000")
                    no_overrides stale)).
    intros [(network & Hnetwork & Hcoin) _].
    injection Hnetwork as <-. discriminate.
Defined.

Lemma exchange_without_routes_is_noop_witness :
  effects (run_exchange wrapped_sol parse_any (closure (Some solana_mainnet) "1000") idle) = [] /\
  cells (run_exchange wrapped_sol parse_any (closure (Some solana_mainnet) "1000") idle) = idle.
Proof.
  apply (@exchange_without_routes_is_noop string string wrapped_sol parse_any).
  left. reflexivity.
Defined.

Lemma exchange_adapter_failure_only_logged_witness :
  let after := run_exchange wrapped_sol parse_any (closure (Some solana_mainnet) "1000") stale in
  error (cells after) = Some "No routes found" /\
  last (effects after)
  = Some (ConsoleError string "Error creating Solana transaction: "
            {| message := "User rejected" |}).
Proof.
  cbv zeta.
  destruct (@exchange_adapter_failure_only_logged string string wrapped_sol parse_any
              (closure (Some solana_mainnet) "1000") stale
              {| encodedTransaction := "AQAB";
                 from := address account;
                 sendOptions := {| skipPreflight := true |} |}
              {| message := "User rejected" |})
    as (Herror & _ & _ & _ & Hlast).
  - right. left. reflexivity.
  - reflexivity.
  - split; assumption.
Defined.

Lemma exchange_submits_selected_or_first_route_witness :
  exists args,
    head (effects (run_exchange wrapped_sol parse_any
                     (closure (Some solana_mainnet) "1000") stale))
    = Some (CallGetJupiterTransactionsPayload args) /\
    route args = Some "route-A".
Proof.
  destruct (@exchange_submits_selected_or_first_route string string wrapped_sol parse_any
              (closure (Some solana_mainnet) "1000") stale
              two_routes "route-A" ["route-B"] solana_mainnet usdc account)
    as (args & Hhead & Hroute & _); try reflexivity.
  exists args. split; assumption.
Defined.

End JupiterProperties.

(* ===================================================================== *)
(** * Further properties of the quote display *)
(* ===================================================================== *)

Module QuoteInfoExtras.

Import Types QuoteInfo Samples QuoteInfoProperties.
Local Open Scope Q_scope.

(** For a positive quote rate, a bound on the delta is a linear bound on the
    two rates. *)
Lemma delta_ge_iff (r ref c : Q) :
  0 < r -> (c <= (r - ref) / r * 100 <-> c * r <= (r - ref) * 100).
Proof.
  intros Hr.
  assert (E : (r - ref) / r * 100 * r == (r - ref) * 100) by (field; lra).
  rewrite <- E. split; intros H.
  - apply Qmult_le_compat_r; lra.
  - apply Qmult_le_r in H; assumption.
Qed.

Lemma delta_lt_iff (r ref c : Q) :
  0 < r -> ((r - ref) / r * 100 < c <-> (r - ref) * 100 < c * r).
Proof.
  intros Hr. split; intros H.
  - apply Qnot_le_lt. intros Hle. apply (delta_ge_iff ref c Hr) in Hle. lra.
  - apply Qnot_le_lt. intros Hle. apply (delta_ge_iff ref c Hr) in Hle. lra.
Qed.



(** X2. The colour is success exactly when the text is not "more
    expensive"; a "cheaper" or "within" text is never shown in warning or
    error colour, and a "more expensive" text never in success colour. *)
Theorem delta_text_and_color_agree (delta : Amount.t) :
  (coinGeckoDeltaColor delta = success
   <-> template (coinGeckoDeltaText delta) <> braveSwapCoinGeckoExpensive) /\
  (template (coinGeckoDeltaText delta) = braveSwapCoinGeckoExpensive
   <-> coinGeckoDeltaColor delta = warning \/ coinGeckoDeltaColor delta = error).
Proof.
  unfold coinGeckoDeltaColor, coinGeckoDeltaText.
  destruct (Amount.gte delta 0) eqn:E0.
  - assert (E1 : Amount.gte delta (-1) = true).
    { apply gte_spec. apply gte_spec in E0. lra. }
    rewrite E1. simpl. repeat split; try discriminate; intros [|]; discriminate.
  - destruct (Amount.gte delta (-1)) eqn:E1; simpl.
    + repeat split; try discriminate; intros [|]; discriminate.
    + destruct (Amount.gte delta (-5)); repeat split; try discriminate;
        try (intros H; now contradiction H); auto.
Qed.

(** X3. The amount put into the placeholder of the text is the absolute
    value of the delta, so it is never negative. *)
Theorem delta_text_shows_absolute_value (delta : Amount.t) :
  placeholder (coinGeckoDeltaText delta) == Qabs delta /\
  0 <= placeholder (coinGeckoDeltaText delta).
Proof.
  assert (E : placeholder (coinGeckoDeltaText delta) == Qabs delta).
  { unfold coinGeckoDeltaText.
    destruct (Amount.gte delta 0) eqn:E0; [| destruct (Amount.gte delta (-1)) eqn:E1];
      simpl; unfold Amount.times.
    - apply gte_spec in E0. now rewrite Qabs_pos.
    - apply gte_false in E0. rewrite Qabs_neg by lra. ring.
    - apply gte_false in E0. rewrite Qabs_neg by lra. ring. }
  split; [exact E |]. rewrite E. apply Qabs_nonneg.
Qed.

(** X4. With everything defined, non-zero spot prices and a positive quote
    rate, the text and the colour are thresholds on the two rates: the text
    is "cheaper" exactly when the quote rate is at least the reference rate
    and "more expensive" exactly when 101 times the quote rate is below 100
    times the reference rate; the colour is error exactly when 105 times the
    quote rate is below 100 times the reference rate. *)
Theorem delta_classes_as_rate_thresholds
    (spotPrices : SpotPrices) (fromToken toToken : BlockchainToken)
    (option : QuoteOption) (toAmount : string) :
  ~ makerAsset spotPrices == 0 ->
  ~ takerAsset spotPrices == 0 ->
  0 < rate option ->
  let reference := makerAsset spotPrices / takerAsset spotPrices in
  let delta :=
    coinGeckoDelta spotPrices (all_defined fromToken toToken option toAmount) in
  (template (coinGeckoDeltaText delta) = braveSwapCoinGeckoCheaper
   <-> reference <= rate option) /\
  (template (coinGeckoDeltaText delta) = braveSwapCoinGeckoExpensive
   <-> 101 * rate option < 100 * reference) /\
  (coinGeckoDeltaColor delta = success <-> 100 * reference <= 101 * rate option) /\
  (coinGeckoDeltaColor delta = error <-> 105 * rate option < 100 * reference).
Proof.
  intros Hm Ht Hrate reference delta.
  assert (E : delta = (rate option - reference) / rate option * 100).
  { apply coinGeckoDelta_defined; now apply truthy_nonzero. }
  assert (Hge : forall c, c <= delta <-> c * rate option <= (rate option - reference) * 100).
  { intros c. rewrite E. now apply delta_ge_iff. }
  assert (Hlt : forall c, delta < c <-> (rate option - reference) * 100 < c * rate option).
  { intros c. rewrite E. now apply delta_lt_iff. }
  clearbody delta reference. clear E.
  unfold coinGeckoDeltaText, coinGeckoDeltaColor.
  destruct (Amount.gte delta 0) eqn:E0;
    destruct (Amount.gte delta (-1)) eqn:E1;
    destruct (Amount.gte delta (-5)) eqn:E5; simpl;
    repeat match goal with
           | H : Amount.gte _ _ = true |- _ => apply gte_spec, Hge in H
           | H : Amount.gte _ _ = false |- _ => apply gte_false, Hlt in H
           end;
    repeat split; try discriminate; try reflexivity; try lra;
    try (intros; exfalso; lra).
Qed.

Lemma delta_classes_as_rate_thresholds_witness :
  coinGeckoDeltaColor
    (coinGeckoDelta {| makerAsset := 100; takerAsset := 50 |}
       (all_defined sol usdc (quoted 1.9) "1")) = error.
Proof.
  apply (@delta_classes_as_rate_thresholds
           {| makerAsset := 100; takerAsset := 50 |} sol usdc (quoted 1.9) "1");
    vm_compute; congruence.
Defined.

(** X5. With everything defined, a positive reference rate and positive
    quote rates, the delta stays below 100, is zero exactly when the quote
    rate equals the reference rate, and a higher quote rate never gives a
    lower delta. *)
Theorem delta_bounded_and_monotone
    (spotPrices : SpotPrices) (fromToken toToken : BlockchainToken)
    (option option' : QuoteOption) (toAmount : string) :
  0 < makerAsset spotPrices / takerAsset spotPrices ->
  0 < rate option ->
  rate option <= rate option' ->
  let reference := makerAsset spotPrices / takerAsset spotPrices in
  let delta :=
    coinGeckoDelta spotPrices (all_defined fromToken toToken option toAmount) in
  let delta' :=
    coinGeckoDelta spotPrices (all_defined fromToken toToken option' toAmount) in
  delta < 100 /\
  (delta == 0 <-> rate option == reference) /\
  delta <= delta'.
Proof.
  intros Href Hrate Hrate' reference delta delta'.
  destruct (positive_quotient Href) as [Hm Ht].
  assert (E : delta = (rate option - reference) / rate option * 100).
  { apply coinGeckoDelta_defined; now apply truthy_nonzero. }
  assert (E' : delta' = (rate option' - reference) / rate option' * 100).
  { apply coinGeckoDelta_defined; now apply truthy_nonzero. }
  fold reference in Href. clearbody delta delta' reference.
  assert (Hrate0 : 0 < rate option') by lra.
  repeat split.
  - rewrite E. apply delta_lt_iff; lra.
  - intros H0.
    assert (Hmul : delta * rate option == (rate option - reference) * 100)
      by (rewrite E; field; lra).
    rewrite H0 in Hmul. lra.
  - intros Heq. rewrite E, Heq. field. lra.
  - rewrite E'. apply delta_ge_iff; [assumption |].
    rewrite E.
    assert (Hmul : (rate option - reference) / rate option * 100 * rate option'
                   == (rate option' - reference * (rate option' / rate option)) * 100)
      by (field; lra).
    rewrite Hmul.
    assert (Hq : 1 <= rate option' / rate option).
    { apply Qle_shift_div_l; lra. }
    assert (Hprod : reference * 1 <= reference * (rate option' / rate option)).
    { apply Qmult_le_l; assumption. }
    lra.
Qed.

Lemma delta_bounded_and_monotone_witness :
  let spotPrices := {| makerAsset := 100; takerAsset := 50 |} in
  coinGeckoDelta spotPrices (all_defined sol usdc (quoted 1.9) "1")
  <= coinGeckoDelta spotPrices (all_defined sol usdc (quoted 2.2) "1").
Proof.
  cbv zeta.
  apply (@delta_bounded_and_monotone
           {| makerAsset := 100; takerAsset := 50 |} sol usdc
           (quoted 1.9) (quoted 2.2) "1");
    vm_compute; congruence.
Defined.

End QuoteInfoExtras.

(* ===================================================================== *)
(** * Properties of the liquidity-provider row *)
(* ===================================================================== *)

Module QuoteInfoViewProperties.

Import Stdlib.Strings.Ascii Types QuoteInfo QuoteInfoView Samples.

Lemma split_not_empty (separator : ascii) (text : string) :
  split separator text <> [].
Proof.
  destruct text as [| c rest]; simpl; [discriminate |].
  destruct (Ascii.eqb c separator); [discriminate |].
  destruct (split separator rest); discriminate.
Qed.

Lemma join_cons_char (glue : string) (c : ascii) (piece : string) (pieces : list string) :
  join glue (String c piece :: pieces) = String c (join glue (piece :: pieces)).
Proof. destruct pieces; reflexivity. Qed.

Lemma join_split_replace (separator glue : ascii) (text : string) :
  join (String glue EmptyString) (split separator text)
  = replace_all separator glue text.
Proof.
  induction text as [| c rest IH]; [reflexivity |]. simpl.
  destruct (Ascii.eqb c separator).
  - destruct (split separator rest) as [| piece pieces] eqn:E.
    + now apply split_not_empty in E.
    + simpl in IH |- *. now rewrite <- IH.
  - destruct (split separator rest) as [| piece pieces] eqn:E.
    + now apply split_not_empty in E.
    + rewrite join_cons_char. now rewrite IH.
Qed.

Lemma replace_all_same (c : ascii) (text : string) : replace_all c c text = text.
Proof.
  induction text as [| d rest IH]; [reflexivity |]. simpl. rewrite IH.
  destruct (Ascii.eqb d c) eqn:E; [| reflexivity].
  apply Ascii.eqb_eq in E. now subst.
Qed.

(** Splitting a text at a character and joining the pieces with the same
    character gives the text back. *)
Lemma join_split_round_trip (separator : ascii) (text : string) :
  join (String separator EmptyString) (split separator text) = text.
Proof. rewrite join_split_replace. apply replace_all_same. Qed.

(** X6. The name shown for a liquidity provider is its name with every
    underscore replaced by a space: it has the length of the name and
    contains no underscore. *)
Theorem displayName_replaces_underscores (source : LiquiditySource) :
  displayName source = replace_all "_" " " (name source) /\
  String.length (displayName source) = String.length (name source) /\
  forall n, String.get n (displayName source) <> Some "_"%char.
Proof.
  assert (E : displayName source = replace_all "_" " " (name source))
    by apply join_split_replace.
  rewrite E. split; [reflexivity |]. generalize (name source). clear E.
  intros text. split.
  - induction text as [| c rest IH]; simpl; congruence.
  - induction text as [| c rest IH]; intros n; simpl; [discriminate |].
    destruct n as [| n]; [| apply IH].
    destruct (Ascii.eqb c "_") eqn:Ec; [discriminate |].
    apply Ascii.eqb_neq in Ec. congruence.
Qed.


End QuoteInfoViewProperties.

(* ===================================================================== *)
(** * Further properties of the wallet-state reducer *)
(* ===================================================================== *)

Module WalletExtras.

Import Types Wallet WalletMembers Samples.

Section Reducer.

Variables Exchange GasEstimate : Type.

Local Abbreviation State := (WalletState Exchange GasEstimate).
Local Abbreviation Action := (WalletActions Exchange GasEstimate).



(** X9. Balances merge key by key: after two updateTokenBalances actions a
    key holds the value of the later payload that has it, else that of the
    earlier one, else what the state held; and the two actions amount to one
    action with the merged payload. *)
Theorem updateTokenBalances_merges (state : State) (first second : Registry) (key : string) :
  tokenBalances
    (WalletReducer (WalletReducer state (updateTokenBalances _ _ first))
                   (updateTokenBalances _ _ second)) !! key
  = match second !! key, first !! key with
    | Some value, _ => Some value
    | None, Some value => Some value
    | None, None => tokenBalances state !! key
    end /\
  WalletReducer (WalletReducer state (updateTokenBalances _ _ first))
                (updateTokenBalances _ _ second)
  = WalletReducer state (updateTokenBalances _ _ (spread first second)).
Proof.
  split.
  - simpl. unfold spread. rewrite !lookup_union.
    destruct (second !! key), (first !! key), (tokenBalances state !! key); reflexivity.
  - simpl. unfold with_tokenBalances, spread; simpl. f_equal.
    now rewrite (assoc_L (∪)).
Qed.

(** X10. The last write wins: when two actions write the same member and
    the second assigns its payload as it is, the state after both is the
    state after the second alone. *)
Theorem same_member_last_write_wins (state : State) (first second : Action) :
  written first = written second ->
  assigns_payload second = true ->
  WalletReducer (WalletReducer state first) second = WalletReducer state second.
Proof.
  destruct first, second; simpl; intros Hsame Hassigns;
    try discriminate; reflexivity.
Qed.

(** X11. Actions that write different members commute: the state after
    both does not depend on the order in which they are dispatched. *)
Theorem different_members_commute (state : State) (a b : Action) :
  written a <> written b ->
  WalletReducer (WalletReducer state a) b = WalletReducer (WalletReducer state b) a.
Proof.
  destruct a, b; simpl; intros Hdiff;
    try reflexivity; now contradiction Hdiff.
Qed.

End Reducer.

Lemma same_member_last_write_wins_witness :
  WalletReducer
    (WalletReducer wallet_with_balance (updateTokenBalances _ _ price_payload))
    (updateTokenSpotPrices _ _ price_payload)
  = WalletReducer wallet_with_balance (updateTokenSpotPrices _ _ price_payload).
Proof.
  apply (@same_member_last_write_wins unit unit); reflexivity.
Defined.

Lemma different_members_commute_witness :
  WalletReducer
    (WalletReducer wallet_with_balance (updateTokenSpotPrices _ _ price_payload))
    (updateTokenList _ _ [sol; usdc])
  = WalletReducer
      (WalletReducer wallet_with_balance (updateTokenList _ _ [sol; usdc]))
      (updateTokenSpotPrices _ _ price_payload).
Proof.
  apply (@different_members_commute unit unit). discriminate.
Defined.

End WalletExtras.

(* ===================================================================== *)
(** * Properties of the wallet state with shared objects *)
(* ===================================================================== *)

Module WalletStoreProperties.

Import Types Wallet WalletStore Samples.

Section Store.

Variables Exchange GasEstimate : Type.

Local Abbreviation Shared := (Shared Exchange GasEstimate).

Lemma deref_insert_eq (store : gmap positive Registry) (ref : positive) (object : Registry) :
  deref (<[ref := object]> store) ref = object.
Proof. unfold deref. now rewrite lookup_insert_eq. Qed.

Lemma deref_insert_ne (store : gmap positive Registry) (ref other : positive)
    (object : Registry) :
  ref <> other -> deref (<[ref := object]> store) other = deref store other.
Proof. intros H. unfold deref. now rewrite lookup_insert_ne. Qed.

Lemma fresh_not_stored (store : gmap positive Registry) (ref : positive) :
  is_Some (store !! ref) -> fresh (dom store) <> ref.
Proof.
  intros Hin E. apply elem_of_dom in Hin. rewrite <- E in Hin.
  now apply is_fresh in Hin.
Qed.

(** The view after a resolved price, and the references behind it. *)
Lemma resolve_price (w : Shared) (key result : string) :
  let w' := resolve w (PriceResolved key result) in
  tokenSpotPrices (view w') = <[key := result]> (tokenSpotPrices (view w)) /\
  tokenBalances (view w') = tokenSpotPrices (view w') /\
  tokenBalancesRef w' = tokenSpotPricesRef w' /\
  tokenSpotPricesRef w' = tokenSpotPricesRef w /\
  valid w'.
Proof.
  unfold resolve, onTokenPrice, assign, reduce, view, valid; simpl.
  rewrite deref_insert_eq, lookup_insert_eq. repeat split; eauto.
Qed.

(** The view after a resolved balance, and the references behind it. *)
Lemma resolve_balance (w : Shared) (key balance : string) :
  valid w ->
  let w' := resolve w (BalanceResolved key balance) in
  tokenBalances (view w') = <[key := balance]> (tokenBalances (view w)) /\
  tokenSpotPrices (view w') = tokenSpotPrices (view w) /\
  tokenBalancesRef w' <> tokenSpotPricesRef w' /\
  tokenSpotPricesRef w' = tokenSpotPricesRef w /\
  valid w'.
Proof.
  intros [Hbalances Hprices].
  unfold resolve, onTokenBalance, reduce, view, valid; simpl.
  set (payload := fresh (dom (objects w))).
  set (store := <[payload := {[key := balance]}]> (objects w)).
  set (created := fresh (dom store)).
  assert (Hpb : payload <> tokenBalancesRef w) by now apply fresh_not_stored.
  assert (Hpp : payload <> tokenSpotPricesRef w) by now apply fresh_not_stored.
  assert (Hcp : created <> tokenSpotPricesRef w).
  { apply fresh_not_stored. subst store. now rewrite lookup_insert_ne. }
  rewrite !deref_insert_eq, lookup_insert_eq.
  rewrite (deref_insert_ne _ _ Hcp). subst store.
  rewrite (deref_insert_ne _ _ Hpb), (deref_insert_ne _ _ Hpp), deref_insert_eq.
  rewrite lookup_insert_ne, lookup_insert_ne by assumption.
  unfold spread. rewrite <- insert_union_singleton_l.
  repeat split; eauto.
Qed.


(** X13. When a price resolves, the spot prices seen in the state gain the
    key with the result, although the reducer writes no spot price; and the
    balances become the very object of the spot prices, so every balance
    held before is replaced by the prices. *)
Theorem price_resolution_aliases_balances (w : Shared) (key result : string) :
  tokenSpotPrices (view (resolve w (PriceResolved key result)))
  = <[key := result]> (tokenSpotPrices (view w)) /\
  tokenBalances (view (resolve w (PriceResolved key result)))
  = <[key := result]> (tokenSpotPrices (view w)) /\
  tokenBalancesRef (resolve w (PriceResolved key result))
  = tokenSpotPricesRef (resolve w (PriceResolved key result)).
Proof.
  destruct (resolve_price w key result) as (Hprices & Hbalances & Href & _).
  rewrite Hbalances, Hprices. repeat split; try reflexivity; exact Href.
Qed.

(** X14. When a balance resolves in a state whose references point into the
    store, the balances gain the key with the balance in an object of their
    own: the spot prices are as before and no longer share the object of the
    balances. *)
Theorem balance_resolution_copies (w : Shared) (key balance : string) :
  valid w ->
  tokenBalances (view (resolve w (BalanceResolved key balance)))
  = <[key := balance]> (tokenBalances (view w)) /\
  tokenSpotPrices (view (resolve w (BalanceResolved key balance)))
  = tokenSpotPrices (view w) /\
  tokenBalancesRef (resolve w (BalanceResolved key balance))
  <> tokenSpotPricesRef (resolve w (BalanceResolved key balance)).
Proof.
  intros Hvalid.
  destruct (resolve_balance key balance Hvalid) as (Hbalances & Hprices & Href & _).
  repeat split; assumption.
Qed.


Variable NATIVE_ASSET_CONTRACT_ADDRESS_0X : string.

(** X16. Once the price of the native asset has resolved to a non-empty
    value, the effect asks for no price any more.  The reducer by itself
    does not bring this about: after its case for updateTokenSpotPrices the
    effect asks for the same prices as before. *)
Theorem native_price_stops_price_requests
    (w : Shared) (result : string)
    (state : WalletState Exchange GasEstimate) (payload : Registry) :
  result <> "" ->
  priceRequests NATIVE_ASSET_CONTRACT_ADDRESS_0X
    (view (resolve w (PriceResolved NATIVE_ASSET_CONTRACT_ADDRESS_0X result))) = [] /\
  priceRequests NATIVE_ASSET_CONTRACT_ADDRESS_0X
    (WalletReducer state (updateTokenSpotPrices _ _ payload))
  = priceRequests NATIVE_ASSET_CONTRACT_ADDRESS_0X state.
Proof.
  intros Hresult. split; [| reflexivity].
  destruct (resolve_price w NATIVE_ASSET_CONTRACT_ADDRESS_0X result) as (Hp & _).
  unfold priceRequests, missing. rewrite Hp, lookup_insert_eq.
  apply String.eqb_neq in Hresult. rewrite Hresult.
  now rewrite andb_false_r.
Qed.

End Store.


Lemma balance_resolution_copies_witness :
  tokenBalances
    (view (resolve (@initialShared unit unit) (BalanceResolved "0xabc" "5")))
  = <[ "0xabc" := "5" ]> (tokenBalances (view (@initialShared unit unit))).
Proof.
  apply (@balance_resolution_copies unit unit).
  split; eexists; reflexivity.
Defined.

Lemma native_price_stops_price_requests_witness :
  priceRequests "0xeeee"
    (view (resolve (@initialShared unit unit) (PriceResolved "0xeeee" "1800"))) = [].
Proof.
  apply (@native_price_stops_price_requests unit unit "0xeeee" initialShared "1800"
           initialState ∅).
  discriminate.
Defined.

End WalletStoreProperties.

(* ===================================================================== *)
(** * Further properties of the Jupiter quote hook *)
(* ===================================================================== *)

Module JupiterExtras.

Import Types Jupiter JupiterEffects Samples MoreSamples JupiterProperties.

Section Callbacks.

Variables JupiterRoute JupiterErrorResponse : Type.
Variable WRAPPED_SOL_CONTRACT_ADDRESS : string.
Variable JSON_parse : string -> Completion JupiterErrorResponse.

Local Abbreviation State := (HookState JupiterRoute JupiterErrorResponse).
Local Abbreviation refreshed :=
  (@run_refresh JupiterRoute JupiterErrorResponse WRAPPED_SOL_CONTRACT_ADDRESS JSON_parse).
Local Abbreviation resolved :=
  (@refresh_result JupiterRoute JupiterErrorResponse WRAPPED_SOL_CONTRACT_ADDRESS JSON_parse).
Local Abbreviation exchanged :=
  (@run_exchange JupiterRoute JupiterErrorResponse WRAPPED_SOL_CONTRACT_ADDRESS JSON_parse).

(** [refresh] past its guards, path by path: the quote request, then the
    stored response or the failure handling. *)
Lemma refresh_past_guards (c : Closure JupiterRoute) (overrides : PartialSwapParams)
    (s : State) fromTok toTok :
  coin_is_not_Solana (selectedNetwork c) = false ->
  fromToken (spread (params c) overrides) = Some fromTok ->
  toToken (spread (params c) overrides) = Some toTok ->
  fromAmount (spread (params c) overrides) <> "" ->
  let args :=
    {| inputMint := or_else (contractAddress fromTok) WRAPPED_SOL_CONTRACT_ADDRESS;
       quoteOutputMint := or_else (contractAddress toTok) WRAPPED_SOL_CONTRACT_ADDRESS;
       amount := fromAmount (spread (params c) overrides);
       quoteSlippagePercentage := slippagePercentage (spread (params c) overrides) |} in
  let idle_again quote' error' :=
    {| quote := quote'; error := error'; loading := false;
       selectedRoute := selectedRoute s |} in
  refresh WRAPPED_SOL_CONTRACT_ADDRESS JSON_parse c overrides (start s) =
  match getJupiterQuote (swapService c) args with
  | Returned response =>
      (Some response,
       {| cells := idle_again (Some response) (error s);
          effects := [CallGetJupiterQuote _ args] |})
  | Thrown e =>
      match JSON_parse (message e) with
      | Returned err =>
          (None,
           {| cells := idle_again (quote s) (Some err);
              effects := [CallGetJupiterQuote _ args;
                          ConsoleLog _ "Error getting Jupiter quote: " e] |})
      | Thrown e' =>
          (None,
           {| cells := idle_again (quote s) (error s);
              effects := [CallGetJupiterQuote _ args;
                          ConsoleLog _ "Error getting Jupiter quote: " e;
                          ConsoleError _ "Error parsing Jupiter response: " e'] |})
      end
  end.
Proof.
  intros Hcoin Hfrom Hto Hamount args idle_again. subst args idle_again.
  apply eqb_empty_false in Hamount.
  run_callback. rewrite Hcoin, Hfrom, Hto, Hamount. cbn [cells effects].
  destruct (getJupiterQuote _ _) as [response | e]; simpl; [reflexivity |].
  destruct (JSON_parse _) as [err | e']; reflexivity.
Qed.

(** Every run of [refresh] is stopped before the request or passes the
    guards with a non-empty amount. *)
Lemma refresh_guards (c : Closure JupiterRoute) (overrides : PartialSwapParams) (s : State) :
  (refresh WRAPPED_SOL_CONTRACT_ADDRESS JSON_parse c overrides (start s) = (None, start s)) \/
  (fromAmount (spread (params c) overrides) = "" /\
   refresh WRAPPED_SOL_CONTRACT_ADDRESS JSON_parse c overrides (start s)
   = (None, {| cells := {| quote := None; error := None; loading := loading s;
                           selectedRoute := selectedRoute s |};
               effects := [] |})) \/
  exists fromTok toTok,
    coin_is_not_Solana (selectedNetwork c) = false /\
    fromToken (spread (params c) overrides) = Some fromTok /\
    toToken (spread (params c) overrides) = Some toTok /\
    fromAmount (spread (params c) overrides) <> "".
Proof.
  destruct (coin_is_not_Solana (selectedNetwork c)) eqn:Hcoin.
  { left. run_callback. now rewrite Hcoin. }
  destruct (fromToken (spread (params c) overrides)) as [fromTok |] eqn:Hfrom.
  2:{ left. run_callback. now rewrite Hcoin, Hfrom. }
  destruct (toToken (spread (params c) overrides)) as [toTok |] eqn:Hto.
  2:{ left. run_callback. now rewrite Hcoin, Hfrom, Hto. }
  destruct (String.eqb (fromAmount (spread (params c) overrides)) "") eqn:Hamount.
  - right. left. split; [now apply String.eqb_eq |].
    run_callback. now rewrite Hcoin, Hfrom, Hto, Hamount.
  - right. right. exists fromTok, toTok. apply eqb_empty_false in Hamount. auto.
Qed.

(** X17. When refresh resolves to a quote, that quote is the stored quote,
    it is the answer of the service to the one request of the run, the
    loading flag is off and the selected route is as before; an error stored
    by an earlier call is still stored. *)
Theorem refresh_success_keeps_stale_error
    (c : Closure JupiterRoute) (overrides : PartialSwapParams) (s : State)
    (response : JupiterQuoteResponse JupiterRoute) :
  resolved c overrides s = Some response ->
  quote (cells (refreshed c overrides s)) = Some response /\
  error (cells (refreshed c overrides s)) = error s /\
  loading (cells (refreshed c overrides s)) = false /\
  selectedRoute (cells (refreshed c overrides s)) = selectedRoute s /\
  exists args,
    effects (refreshed c overrides s) = [CallGetJupiterQuote _ args] /\
    getJupiterQuote (swapService c) args = Returned response.
Proof.
  unfold refresh_result, run_refresh.
  destruct (refresh_guards c overrides s)
    as [-> | [[_ ->] | (fromTok & toTok & Hcoin & Hfrom & Hto & Hamount)]];
    try discriminate.
  rewrite (refresh_past_guards s Hcoin Hfrom Hto Hamount). cbv zeta.
  destruct (getJupiterQuote _ _) as [response' | e] eqn:Hservice.
  - simpl. intros [= ->]. repeat split. eexists. split; [reflexivity | exact Hservice].
  - destruct (JSON_parse _); discriminate.
Qed.

(** X18. When the service fails the request of a refresh, refresh resolves
    to undefined, the failure is logged, the quote stored before stays
    stored, the loading flag is off, and the error becomes the parsed
    message of the failure, or stays as it was when the message does not
    parse. *)
Theorem refresh_failure_keeps_stale_quote
    (c : Closure JupiterRoute) (overrides : PartialSwapParams) (s : State)
    (args : JupiterQuoteParams) (e : Exception) :
  In (CallGetJupiterQuote JupiterRoute args) (effects (refreshed c overrides s)) ->
  getJupiterQuote (swapService c) args = Thrown e ->
  resolved c overrides s = None /\
  quote (cells (refreshed c overrides s)) = quote s /\
  loading (cells (refreshed c overrides s)) = false /\
  error (cells (refreshed c overrides s))
  = match JSON_parse (message e) with
    | Returned err => Some err
    | Thrown _ => error s
    end /\
  In (ConsoleLog JupiterRoute "Error getting Jupiter quote: " e)
     (effects (refreshed c overrides s)).
Proof.
  unfold refresh_result, run_refresh.
  destruct (refresh_guards c overrides s)
    as [-> | [[_ ->] | (fromTok & toTok & Hcoin & Hfrom & Hto & Hamount)]];
    try (intros []).
  rewrite (refresh_past_guards s Hcoin Hfrom Hto Hamount). cbv zeta.
  match goal with
  | |- context [getJupiterQuote _ ?r] => set (request := r) in *
  end.
  destruct (getJupiterQuote _ request) as [response | e0] eqn:Hservice.
  - cbn [In effects snd]. intros [[= E] | []] Hthrown.
    rewrite <- E, Hservice in Hthrown. discriminate.
  - destruct (JSON_parse (message e0)) as [err | e'] eqn:Hparse;
      cbn [In effects snd fst cells quote error loading];
      intros Hin Hthrown;
      (destruct Hin as [[= E] | Hin];
       [| repeat (destruct Hin as [Hin | Hin]; try discriminate); contradiction]);
      rewrite <- E, Hservice in Hthrown; injection Hthrown as <-;
      rewrite Hparse; repeat split; auto.
Qed.

(** X19. Every run of refresh leaves the selected route alone and either
    performs no effect or begins with the one quote request, goes on with
    console lines only and ends with the loading flag off. *)
Theorem refresh_frame
    (c : Closure JupiterRoute) (overrides : PartialSwapParams) (s : State) :
  selectedRoute (cells (refreshed c overrides s)) = selectedRoute s /\
  (effects (refreshed c overrides s) = [] \/
   exists args rest,
     effects (refreshed c overrides s) = CallGetJupiterQuote _ args :: rest /\
     forallb (@is_console JupiterRoute) rest = true /\
     loading (cells (refreshed c overrides s)) = false).
Proof.
  unfold run_refresh.
  destruct (refresh_guards c overrides s)
    as [-> | [[_ ->] | (fromTok & toTok & Hcoin & Hfrom & Hto & Hamount)]];
    [split; [reflexivity | now left] .. |].
  rewrite (refresh_past_guards s Hcoin Hfrom Hto Hamount). cbv zeta.
  destruct (getJupiterQuote _ _) as [response | e];
    [| destruct (JSON_parse _) as [err | e']];
    (split; [reflexivity | right; eexists; eexists; repeat split]).
Qed.

(** X20. The quote request of a refresh is built from the hook's
    parameters with the overrides laid over them: its amount is the
    overriding amount when there is one and the amount of the parameters
    otherwise, and it is not empty; and when the wrapped SOL address is not
    empty, neither the input nor the output mint is empty, a token without
    contract address being requested under the wrapped SOL address. *)
Theorem refresh_request_content
    (c : Closure JupiterRoute) (overrides : PartialSwapParams) (s : State)
    (args : JupiterQuoteParams) :
  In (CallGetJupiterQuote JupiterRoute args) (effects (refreshed c overrides s)) ->
  amount args = default (fromAmount (params c)) (overrideFromAmount overrides) /\
  amount args <> "" /\
  (exists fromTok toTok,
     default (fromToken (params c)) (overrideFromToken overrides) = Some fromTok /\
     default (toToken (params c)) (overrideToToken overrides) = Some toTok /\
     inputMint args
     = (if String.eqb (contractAddress fromTok) ""
        then WRAPPED_SOL_CONTRACT_ADDRESS else contractAddress fromTok) /\
     quoteOutputMint args
     = (if String.eqb (contractAddress toTok) ""
        then WRAPPED_SOL_CONTRACT_ADDRESS else contractAddress toTok)) /\
  (WRAPPED_SOL_CONTRACT_ADDRESS <> "" ->
   inputMint args <> "" /\ quoteOutputMint args <> "").
Proof.
  unfold run_refresh.
  destruct (refresh_guards c overrides s)
    as [-> | [[_ ->] | (fromTok & toTok & Hcoin & Hfrom & Hto & Hamount)]];
    try (intros []).
  rewrite (refresh_past_guards s Hcoin Hfrom Hto Hamount). cbv zeta.
  intros Hin.
  assert (E : args =
    {| inputMint := or_else (contractAddress fromTok) WRAPPED_SOL_CONTRACT_ADDRESS;
       quoteOutputMint := or_else (contractAddress toTok) WRAPPED_SOL_CONTRACT_ADDRESS;
       amount := fromAmount (spread (params c) overrides);
       quoteSlippagePercentage := slippagePercentage (spread (params c) overrides) |}).
  { match goal with
    | |- _ = ?r => set (request := r) in *
    end.
    destruct (getJupiterQuote _ request) as [response | e];
      [| destruct (JSON_parse _) as [err | e']];
      cbn [In effects snd] in Hin;
      repeat (destruct Hin as [Hin | Hin]; try discriminate);
      try contradiction; now injection Hin. }
  subst args. cbn [amount inputMint quoteOutputMint].
  split; [reflexivity |]. split; [exact Hamount |]. split.
  - exists fromTok, toTok. auto.
  - intros Hwrapped. unfold or_else.
    split.
    + destruct (String.eqb (contractAddress fromTok) "") eqn:E; [assumption |].
      now apply String.eqb_neq.
    + destruct (String.eqb (contractAddress toTok) "") eqn:E; [assumption |].
      now apply String.eqb_neq.
Qed.

(** X21. Every run of exchange leaves the quote and the selected route
    alone and either does nothing at all or begins with the request for the
    transactions payload and ends with the loading flag off. *)
Theorem exchange_frame (c : Closure JupiterRoute) (s : State) :
  quote (cells (exchanged c s)) = quote s /\
  selectedRoute (cells (exchanged c s)) = selectedRoute s /\
  (exchanged c s = start s \/
   exists args rest,
     effects (exchanged c s) = CallGetJupiterTransactionsPayload args :: rest /\
     loading (cells (exchanged c s)) = false).
Proof.
  destruct (exchange_guards WRAPPED_SOL_CONTRACT_ADDRESS JSON_parse c s)
    as [Hstop | (q & first & rest & toTok & account & Hq & Hr & Hc & Ht & Ha)].
  { rewrite Hstop. repeat split. now left. }
  rewrite (exchange_past_guards WRAPPED_SOL_CONTRACT_ADDRESS JSON_parse Hq Hr Hc Ht Ha).
  cbv zeta.
  destruct (getJupiterTransactionsPayload _ _) as [response | e];
    [destruct (sendTransaction _ _) as [[] | e] | destruct (JSON_parse _) as [err | e']];
    (split; [now rewrite Hq |]; split; [reflexivity |];
     right; eexists; eexists; split; reflexivity).
Qed.


(** X23. A transaction reaches the wallet adapter only as the second effect
    of a run, right after a payload request that the service answered: it is
    the swap transaction of that answer, sent from the selected account with
    the preflight skipped; the setup and cleanup transactions of the answer
    are not sent. *)
Theorem exchange_sends_swap_transaction
    (c : Closure JupiterRoute) (s : State) (sent : SendSolanaTransactionParams) :
  In (CallSendTransaction JupiterRoute sent) (effects (exchanged c s)) ->
  exists args response account rest,
    effects (exchanged c s)
    = CallGetJupiterTransactionsPayload args :: CallSendTransaction _ sent :: rest /\
    forallb (@is_console JupiterRoute) rest = true /\
    getJupiterTransactionsPayload (swapService c) args = Returned response /\
    selectedAccount c = Some account /\
    sent = {| encodedTransaction := swapTransaction response;
              from := address account;
              sendOptions := {| skipPreflight := true |} |}.
Proof.
  destruct (exchange_guards WRAPPED_SOL_CONTRACT_ADDRESS JSON_parse c s)
    as [Hstop | (q & first & rest & toTok & account & Hq & Hr & Hc & Ht & Ha)].
  { rewrite Hstop. intros []. }
  rewrite (exchange_past_guards WRAPPED_SOL_CONTRACT_ADDRESS JSON_parse Hq Hr Hc Ht Ha).
  cbv zeta.
  match goal with
  | |- context [getJupiterTransactionsPayload _ ?r] => set (request := r) in *
  end.
  destruct (getJupiterTransactionsPayload _ request) as [response | e0] eqn:Hservice.
  - match goal with
    | |- context [sendTransaction _ ?r] => set (transaction := r) in *
    end.
    destruct (sendTransaction _ transaction) as [[] | e1];
      cbn [In effects]; intros Hin;
      repeat (destruct Hin as [[= E] | Hin]; try discriminate);
      try contradiction;
      exists request, response, account; eexists;
      rewrite <- E; repeat split; assumption.
  - destruct (JSON_parse (message e0)) as [err | e'];
      cbn [In effects]; intros Hin;
      repeat (destruct Hin as [Hin | Hin]; try discriminate); contradiction.
Qed.

(** X24. When the selected network's coin is not Solana, or the hook has no
    toToken, or no account is selected, exchange is a no-op even with a
    quote in hand: no effect, and the four state cells as they were. *)
Theorem exchange_without_network_token_or_account_is_noop
    (c : Closure JupiterRoute) (s : State) :
  coin_is_not_Solana (selectedNetwork c) = true \/
  toToken (params c) = None \/
  selectedAccount c = None ->
  effects (exchanged c s) = [] /\ cells (exchanged c s) = s.
Proof.
  intros H.
  rewrite (@exchange_early_exit _ _ WRAPPED_SOL_CONTRACT_ADDRESS JSON_parse c s);
    [split; reflexivity |].
  destruct H as [H | [H | H]]; auto 6.
Qed.

(** X25. A refresh does not reset the selected route: when a refresh has
    stored a new quote with at least one route and a route was selected
    before, the exchange that follows submits the route selected before,
    whether or not the new quote offers it. *)
Theorem exchange_after_refresh_submits_old_selection
    (c : Closure JupiterRoute) (overrides : PartialSwapParams) (s : State)
    (response : JupiterQuoteResponse JupiterRoute)
    (first chosen : JupiterRoute) (rest : list JupiterRoute)
    (toTok : BlockchainToken) (account : WalletAccount) :
  resolved c overrides s = Some response ->
  routes response = first :: rest ->
  selectedRoute s = Some chosen ->
  toToken (params c) = Some toTok ->
  selectedAccount c = Some account ->
  exists args,
    head (effects (exchanged c (cells (refreshed c overrides s))))
    = Some (CallGetJupiterTransactionsPayload args) /\
    route args = Some chosen.
Proof.
  unfold refresh_result, run_refresh.
  destruct (refresh_guards c overrides s)
    as [-> | [[_ ->] | (fromTok & toTok' & Hcoin & Hfrom & Hto & Hamount)]];
    try discriminate.
  rewrite (refresh_past_guards s Hcoin Hfrom Hto Hamount). cbv zeta.
  destruct (getJupiterQuote _ _) as [response' | e];
    [| destruct (JSON_parse _); discriminate].
  cbn [fst snd cells]. intros [= ->] Hroutes Hchosen HtoTok Haccount.
  rewrite (@exchange_past_guards _ _ WRAPPED_SOL_CONTRACT_ADDRESS JSON_parse c _
             response first rest toTok account);
    try assumption; try reflexivity.
  cbv zeta. cbn [selectedRoute]. rewrite Hchosen.
  match goal with
  | |- context [getJupiterTransactionsPayload _ ?r] => exists r
  end.
  split; [| reflexivity].
  destruct (getJupiterTransactionsPayload _ _) as [payload | e];
    [destruct (sendTransaction _ _) as [[] | e] | destruct (JSON_parse _)];
    reflexivity.
Qed.

(** X26. After a refresh that found the amount empty and cleared the quote,
    exchange is a no-op. *)
Theorem exchange_after_cleared_quote_is_noop
    (c : Closure JupiterRoute) (overrides : PartialSwapParams) (s : State) :
  coin_is_not_Solana (selectedNetwork c) = false ->
  is_Some (fromToken (spread (params c) overrides)) ->
  is_Some (toToken (spread (params c) overrides)) ->
  fromAmount (spread (params c) overrides) = "" ->
  effects (exchanged c (cells (refreshed c overrides s))) = [] /\
  quote (cells (exchanged c (cells (refreshed c overrides s)))) = None.
Proof.
  intros Hcoin Hfrom Hto Hamount.
  rewrite (refresh_clears_on_empty_amount WRAPPED_SOL_CONTRACT_ADDRESS JSON_parse
             s Hcoin Hfrom Hto Hamount).
  cbn [cells].
  rewrite (@exchange_early_exit _ _ WRAPPED_SOL_CONTRACT_ADDRESS JSON_parse c);
    [split; reflexivity | now left].
Qed.

End Callbacks.

Lemma refresh_success_keeps_stale_error_witness :
  let after := run_refresh wrapped_sol parse_any
                 (closure (Some solana_mainnet) "1000") no_overrides stale in
  quote (cells after) = Some two_routes /\
  error (cells after) = Some "No routes found".
Proof.
  cbv zeta.
  destruct (@refresh_success_keeps_stale_error string string wrapped_sol parse_any
              (closure (Some solana_mainnet) "1000") no_overrides stale two_routes)
    as (Hquote & Herror & _); [reflexivity |].
  split; assumption.
Defined.

Lemma refresh_failure_keeps_stale_quote_witness :
  let after := run_refresh wrapped_sol parse_any
                 (failing_closure "1000") no_overrides stale in
  quote (cells after) = Some two_routes /\ loading (cells after) = false.
Proof.
  cbv zeta.
  destruct (@refresh_failure_keeps_stale_quote string string wrapped_sol parse_any
              (failing_closure "1000") no_overrides stale
              {| inputMint := wrapped_sol;
                 quoteOutputMint := contractAddress usdc;
                 amount := "1000";
                 quoteSlippagePercentage := 0.5%Q |}
              {| message := "No routes found" |})
    as (_ & Hquote & Hloading & _).
  - left. reflexivity.
  - reflexivity.
  - split; assumption.
Defined.

Lemma refresh_request_content_witness :
  let args := {| inputMint := wrapped_sol;
                 quoteOutputMint := contractAddress usdc;
                 amount := "1000";
                 quoteSlippagePercentage := 0.5%Q |} in
  amount args <> "" /\ inputMint args <> "" /\ quoteOutputMint args <> "".
Proof.
  cbv zeta.
  destruct (@refresh_request_content string string wrapped_sol parse_any
              (closure (Some solana_mainnet) "1000") no_overrides stale
              {| inputMint := wrapped_sol;
                 quoteOutputMint := contractAddress usdc;
                 amount := "1000";
                 quoteSlippagePercentage := 0.5%Q |})
    as (_ & Hamount & _ & Hmints).
  - left. reflexivity.
  - split; [exact Hamount | apply Hmints; discriminate].
Defined.


Lemma exchange_sends_swap_transaction_witness :
  exists args response account rest,
    effects (run_exchange wrapped_sol parse_any (closure (Some solana_mainnet) "1000") stale)
    = CallGetJupiterTransactionsPayload args
      :: CallSendTransaction string
           {| encodedTransaction := "AQAB";
              from := address Samples.account;
              sendOptions := {| skipPreflight := true |} |}
      :: rest /\
    forallb (@is_console string) rest = true /\
    getJupiterTransactionsPayload
      (swapService (closure (Some solana_mainnet) "1000")) args = Returned response /\
    selectedAccount (closure (Some solana_mainnet) "1000") = Some account /\
    {| encodedTransaction := "AQAB";
       from := address Samples.account;
       sendOptions := {| skipPreflight := true |} |}
    = {| encodedTransaction := swapTransaction response;
         from := address account;
         sendOptions := {| skipPreflight := true |} |}.
Proof.
  apply (@exchange_sends_swap_transaction string string wrapped_sol parse_any).
  right. left. reflexivity.
Defined.

Lemma exchange_without_network_token_or_account_is_noop_witness :
  effects (run_exchange wrapped_sol parse_any
             (closure (Some ethereum_mainnet) "1000") stale) = [] /\
  cells (run_exchange wrapped_sol parse_any
           (closure (Some ethereum_mainnet) "1000") stale) = stale.
Proof.
  apply (@exchange_without_network_token_or_account_is_noop string string
           wrapped_sol parse_any).
  left. reflexivity.
Defined.

Lemma exchange_after_refresh_submits_old_selection_witness :
  exists args,
    head (effects
            (run_exchange wrapped_sol parse_any (closure (Some solana_mainnet) "1000")
               (cells (run_refresh wrapped_sol parse_any
                         (closure (Some solana_mainnet) "1000") no_overrides
                         selected_elsewhere))))
    = Some (CallGetJupiterTransactionsPayload args) /\
    route args = Some "route-Z".
Proof.
  apply (@exchange_after_refresh_submits_old_selection string string wrapped_sol
           parse_any (closure (Some solana_mainnet) "1000") no_overrides
           selected_elsewhere two_routes "route-A" "route-Z" ["route-B"] usdc account);
    reflexivity.
Defined.

Lemma exchange_after_cleared_quote_is_noop_witness :
  effects
    (run_exchange wrapped_sol parse_any (closure (Some solana_mainnet) "")
       (cells (run_refresh wrapped_sol parse_any
                 (closure (Some solana_mainnet) "") no_overrides stale))) = [].
Proof.
  apply (@exchange_after_cleared_quote_is_noop string string wrapped_sol parse_any
           (closure (Some solana_mainnet) "") no_overrides stale);
    try reflexivity; eexists; reflexivity.
Defined.

End JupiterExtras.
